(** * HITLProxy: a human-in-the-loop gating proxy for MCP tool calls

    Shallow embedding of [packages/agent0/src/mcp-server/HITLProxy.ts].

    The proxy sits between a caller and a downstream tool server.  Tool
    names found in [BlockedTools] are refused, names found in
    [HighRiskTools] are parked in [pendingTasks] until an out-of-band
    approval arrives, every other name is forwarded.  The synthetic tool
    [check_task_status] polls the approval channel for a parked task.

    Modelling conventions.
    - JavaScript values are [json] terms; objects are ordered association
      lists, as property order is observable through the spread operator.
    - The class instance is the [world]: the [pendingTasks] map, the wall
      clock read by [Date.now()] and the log of every interaction with an
      external collaborator (approval service, downstream client, timers,
      notifications), newest event first.
    - The collaborators are an [Env] of oracles.  An oracle sees the whole
      log so far, hence may answer differently on each call; it returns
      the outcome of the awaited promise together with the time that
      elapsed while the handler was suspended.  Synchronous code takes no
      time.
    - Every handler is given twice: as the function it computes when
      nothing runs between its [await]s, and as a resumable [proc] that
      is cut at its [await]s.  [serve] runs a pool of such handlers
      under an arbitrary schedule; the two views agree on every handler
      that runs alone.
    - [console.log]/[console.error] lines are not modelled. *)

From Stdlib Require Import ZArith Lia Ascii String.
From stdpp Require Import base strings gmap list pretty.

Local Open Scope string_scope.
Local Open Scope list_scope.
Local Set Warnings "-register-all".

(** ** JavaScript values *)

Inductive json : Type :=
| JUndefined
| JNull
| JBool (b : bool)
| JNum (n : Z)
| JStr (s : string)
| JArr (elems : list json)
| JObj (fields : list (string * json)).

Definition obj : Type := list (string * json).

(** Own-property read [o[k]]; a missing property reads as [undefined]. *)
Fixpoint obj_get (o : obj) (k : string) : json :=
  match o with
  | [] => JUndefined
  | (k', v) :: o' => if bool_decide (k' = k) then v else obj_get o' k
  end.

(** Property write as performed by an object literal or a spread: an
    existing key keeps its position and takes the new value, a new key is
    appended. *)
Fixpoint obj_set (k : string) (v : json) (o : obj) : obj :=
  match o with
  | [] => [(k, v)]
  | (k', v') :: o' =>
      if bool_decide (k' = k) then (k, v) :: o' else (k', v') :: obj_set k v o'
  end.

(** [ToBoolean]. *)
Definition truthy (v : json) : bool :=
  match v with
  | JUndefined | JNull => false
  | JBool b => b
  | JNum n => negb (n =? 0)%Z
  | JStr s => negb (bool_decide (s = ""))
  | JArr _ | JObj _ => true
  end.

Definition nullish (v : json) : bool :=
  match v with JUndefined | JNull => true | _ => false end.

(** [v.k] for a non-nullish [v].  Only the keys [taskId],
    [structuredContent], [status] and [progressToken] are ever read, and
    none of them is a built-in property of a primitive or an array. *)
Definition get_prop (v : json) (k : string) : json :=
  match v with
  | JObj o => obj_get o k
  | _ => JUndefined
  end.

(** [v?.k]. *)
Definition opt_chain (v : json) (k : string) : json :=
  if nullish v then JUndefined else get_prop v k.

(** [a ?? b]. *)
Definition nullish_coalesce (a b : json) : json :=
  if nullish a then b else a.

(** [typeof v === 'string']. *)
Definition typeof_string (v : json) : bool :=
  match v with JStr _ => true | _ => false end.

(** [v === s] for a string literal [s]. *)
Definition strict_eq_str (v : json) (s : string) : bool :=
  match v with JStr t => bool_decide (t = s) | _ => false end.

(** [l.includes(x)] on an array of strings. *)
Definition includes (l : list string) (x : string) : bool :=
  bool_decide (x ∈ l).

(** [s.substring(i, j)] for [0 <= i <= j]; both ends are clipped to the
    length of [s]. *)
Definition JS_substring (i j : nat) (s : string) : string :=
  String.substring i (j - i) s.

(** [{ type: 'text', text: s }] *)
Definition text_content (s : string) : json :=
  JObj [("type", JStr "text"); ("text", JStr s)].

(** ** Thrown values and promise outcomes *)

(** The fields the catch blocks read off a thrown value; [None] is a
    field that is [undefined]. *)
Record js_error : Type := JsError {
  err_message : option string;
  err_error : option string;
  err_error_description : option string;
}.

Definition Error (msg : string) : js_error :=
  JsError (Some msg) None None.

(** A field interpolated in a template literal. *)
Definition render (f : option string) : string :=
  default "undefined" f.

(** [f || dflt] for a string-valued field. *)
Definition or_else (f : option string) (dflt : string) : string :=
  match f with
  | Some s => if bool_decide (s = "") then dflt else s
  | None => dflt
  end.

Inductive outcome (A : Type) : Type :=
| Resolved (a : A)
| Rejected (e : js_error).
Arguments Resolved {A} a.
Arguments Rejected {A} e.

(** ** Configuration and task records *)

Record MCPServerConfig : Type := {
  command : string;
  args : list string;
  env : list (string * string);
  HighRiskTools : list string;
  BlockedTools : list string;
}.

Inductive task_status : Type := PENDING | APPROVED | DENIED.

Record task : Type := Task {
  toolName : string;
  toolArgs : json;
  status : task_status;
  hitlOobCode : option string;
}.

(** What [MCPServerMap[name]] can evaluate to.  The table is a plain
    object literal, so a read that finds no own property falls through
    to [Object.prototype]: for the names below it yields one of the
    prototype's members (a function, or the prototype itself for
    [__proto__]), a truthy value that has none of the properties of a
    configuration. *)
Inductive table_value : Type :=
| ConfigObject (config : MCPServerConfig)
| Inherited (name : string).

Definition Object_prototype_names : list string :=
  ["constructor"; "__defineGetter__"; "__defineSetter__"; "hasOwnProperty";
   "__lookupGetter__"; "__lookupSetter__"; "isPrototypeOf";
   "propertyIsEnumerable"; "toString"; "valueOf"; "__proto__"; "toLocaleString"].

(** [table[name]], for the object literal whose own properties are the
    entries of [table]; [None] is [undefined]. *)
Definition MCPServerMap_get (table : gmap string MCPServerConfig) (name : string)
  : option table_value :=
  match table !! name with
  | Some config => Some (ConfigObject config)
  | None =>
      if bool_decide (name ∈ Object_prototype_names) then Some (Inherited name)
      else None
  end.

(** The own properties of the static table of the class; it is read
    through [MCPServerMap_get].  [ACCESS_TOKEN] is the rendering of
    [process.env.ACCESS_TOKEN] at load time. *)
Definition todo_mcp_server (ACCESS_TOKEN : string) : MCPServerConfig := {|
  command := "/usr/bin/node";
  args := ["dist/mcp-server/todo-mcp-server-http.js"];
  env := [("ACCESS_TOKEN", ACCESS_TOKEN)];
  HighRiskTools := ["add_todos"];
  BlockedTools := ["welcome_to_okta"];
|}.

Definition static_MCPServerMap (ACCESS_TOKEN : string)
  : gmap string MCPServerConfig :=
  {[ "todo-mcp-server" := todo_mcp_server ACCESS_TOKEN ]}.

(** ** Interaction log, collaborators, instance state *)

Inductive event : Type :=
| EvRandom (digits : list N)
| EvSendApprovalRequest (approver : string) (r : outcome string)
| EvCheckForApproval (oobCode : string) (r : outcome string)
| EvCallTool (name : string) (arguments : json) (r : outcome obj)
| EvListTools (r : outcome (list json))
| EvConnect (server : table_value) (r : outcome unit)
| EvNotification (method : string) (params : obj)
| EvSetTimeout (ms : Z).

(** Each oracle receives the log so far.  [Math_random] yields the digits
    that [toString(36)] prints after the radix point for the number drawn
    (none for the number 0); a digit [d] stands for [d mod 36].  The
    second component of an awaited call is the time it took; [lateness]
    is by how much a timer fires after its delay. *)
Record Env : Type := {
  Math_random : list event → list N;
  sendApprovalRequest : list event → string → outcome string * N;
  checkForApproval : list event → string → outcome string * N;
  downstream_callTool : list event → string → json → outcome obj * N;
  downstream_listTools : list event → outcome (list json) * N;
  downstream_connect : list event → table_value → outcome unit * N;
  lateness : list event → Z → N;
}.

Record world : Type := World {
  pendingTasks : gmap string task;
  clock : Z;
  trace : list event;
}.

Definition M (A : Type) : Type := world → A * world.

Global Instance M_ret : MRet M := λ A a w, (a, w).
Global Instance M_bind : MBind M := λ A B f m w, let '(a, w') := m w in f a w'.

(** One awaited interaction: log it and let the clock run. *)
Definition interact {A} (ev : A → event) (answer : list event → A * N) : M A :=
  λ w, let '(a, dt) := answer (trace w) in
       (a, World (pendingTasks w) (clock w + Z.of_N dt) (ev a :: trace w)).

Definition Date_now : M Z := λ w, (clock w, w).

Definition pendingTasks_get (taskId : string) : M (option task) :=
  λ w, (pendingTasks w !! taskId, w).

Definition pendingTasks_set (taskId : string) (t : task) : M unit :=
  λ w, (tt, World (<[taskId := t]> (pendingTasks w)) (clock w) (trace w)).

Definition pendingTasks_delete (taskId : string) : M unit :=
  λ w, (tt, World (delete taskId (pendingTasks w)) (clock w) (trace w)).

(** [server.notification(...)]: handed to the transport, which is taken
    to accept it. *)
Definition notification (method : string) (params : obj) : M unit :=
  λ w, (tt, World (pendingTasks w) (clock w) (EvNotification method params :: trace w)).

(** [await new Promise(r => setTimeout(r, ms))] *)
Definition sleep (E : Env) (ms : Z) : M unit :=
  λ w, (tt, World (pendingTasks w)
                  (clock w + ms + Z.of_N (lateness E (trace w) ms))
                  (EvSetTimeout ms :: trace w)).

(** ** Task identifiers *)

Definition base36_char (d : N) : ascii :=
  let d := (d mod 36)%N in
  Ascii.ascii_of_N (if (d <? 10)%N then 48 + d else 87 + d)%N.

Fixpoint base36_digits (ds : list N) : string :=
  match ds with
  | [] => ""
  | d :: ds' => String (base36_char d) (base36_digits ds')
  end.

(** [x.toString(36)] for [0 <= x < 1] with fraction digits [ds]. *)
Definition Number_toString36 (ds : list N) : string :=
  match ds with
  | [] => "0"
  | _ => "0." +:+ base36_digits ds
  end.

(** [`task-${Date.now()}-${Math.random().toString(36).substring(2, 6)}`] *)
Definition make_taskId (now : Z) (rnd : list N) : string :=
  "task-" +:+ pretty now +:+ "-" +:+ JS_substring 2 6 (Number_toString36 rnd).

(** ** [JSON.stringify] of an array of strings *)

Definition hex_char (d : N) : ascii :=
  Ascii.ascii_of_N (if (d <? 10)%N then 48 + d else 87 + d)%N.

Definition dquote : string := String (Ascii.ascii_of_N 34) "".
Definition backslash : string := String (Ascii.ascii_of_N 92) "".

Definition quote_char (c : ascii) : string :=
  let n := Ascii.N_of_ascii c in
  if (n =? 34)%N then backslash +:+ dquote
  else if (n =? 92)%N then backslash +:+ backslash
  else if (n =? 8)%N then backslash +:+ "b"
  else if (n =? 9)%N then backslash +:+ "t"
  else if (n =? 10)%N then backslash +:+ "n"
  else if (n =? 12)%N then backslash +:+ "f"
  else if (n =? 13)%N then backslash +:+ "r"
  else if (n <? 32)%N then
    backslash +:+ "u00" +:+ String (hex_char (n / 16)) (String (hex_char (n mod 16)) "")
  else String c "".

Fixpoint quote_chars (s : string) : string :=
  match s with
  | EmptyString => ""
  | String c s' => quote_char c +:+ quote_chars s'
  end.

Definition quote_JSON_string (s : string) : string :=
  dquote +:+ quote_chars s +:+ dquote.

Fixpoint join_comma (l : list string) : string :=
  match l with
  | [] => ""
  | [s] => s
  | s :: l' => s +:+ "," +:+ join_comma l'
  end.

Definition JSON_stringify_strings (l : list string) : string :=
  "[" +:+ join_comma (quote_JSON_string <$> l) +:+ "]".

(** ** The proxy *)

Section HITLProxy.

(** The static table, the server name the instance was created for and
    the collaborators it talks to. *)
Variable MCPServerMap : gmap string MCPServerConfig.
Variable downstreamServerName : string.
Variable E : Env.

Definition initializeDownstreamConnection : M (outcome unit) :=
  match MCPServerMap_get MCPServerMap downstreamServerName with
  | None =>
      mret (Rejected (Error ("Transport config for " +:+ downstreamServerName
                             +:+ " not found.")))
  | Some config =>
      interact (EvConnect config) (λ tr, downstream_connect E tr config)
  end.

Definition getTools : M (list json) :=
  match MCPServerMap_get MCPServerMap downstreamServerName with
  | None => mret []
  | Some config =>
      r ← interact EvListTools (downstream_listTools E);
      match r with
      | Resolved tools => mret tools
      | Rejected _ => mret []
      end
  end.

Definition blocked_payload (toolName : string) : json :=
  JObj [("isError", JBool true);
        ("content", JArr [text_content ("❌ Access to " +:+ toolName
                                        +:+ " has been blocked.")])].

Definition setup_failed_payload (error : js_error) : json :=
  JObj [("isError", JBool true);
        ("content", JArr [text_content ("Authorization setup failed: "
                                        +:+ render (err_message error))])].

Definition pending_poll_payload (toolName taskId : string) : json :=
  JObj [("content", JArr [text_content
           ("AUTHORIZATION_REQUIRED: Task " +:+ toolName +:+
            " requires approval. The task is pending. The next necessary step is to call the 'check_task_status' tool with the Task ID to get the current status.")]);
        ("structuredContent",
         JObj [("status", JStr "PENDING_APPROVAL_POLL");
               ("next_action", JStr "call_tool");
               ("tool_to_call", JStr "check_task_status");
               ("taskId", JStr taskId);
               ("tool_args", JObj [("taskId", JStr taskId)])])].

Definition progress_params (progressToken : json) : obj :=
  [("progressToken", progressToken);
   ("progress", JNum 10);
   ("total", JNum 100);
   ("message", JStr "Awaiting Approval for High Risk Task")].

(** A value inherited from [Object.prototype] passes the [!config]
    guard; reading [.BlockedTools.includes] off it throws. *)
Definition callTool (toolName : string) (toolargs : json) (progressToken : json)
  : M (outcome json) :=
  match MCPServerMap_get MCPServerMap downstreamServerName with
  | None => mret (Resolved JNull)
  | Some (Inherited _) =>
      mret (Rejected (Error
        "Cannot read properties of undefined (reading 'includes')"))
  | Some (ConfigObject config) =>
      if includes (BlockedTools config) toolName then
        mret (Resolved (blocked_payload toolName))
      else if includes (HighRiskTools config) toolName then
        now ← Date_now;
        rnd ← interact EvRandom (λ tr, (Math_random E tr, 0%N));
        let taskId := make_taskId now rnd in
        r ← interact (EvSendApprovalRequest "bob@tables.fake")
                     (λ tr, sendApprovalRequest E tr "bob@tables.fake");
        match r with
        | Rejected error => mret (Resolved (setup_failed_payload error))
        | Resolved oobCode =>
            pendingTasks_set taskId
              {| toolName := toolName; toolArgs := toolargs;
                 status := PENDING; hitlOobCode := Some oobCode |};;
            (if truthy progressToken
             then notification "notifications/progress" (progress_params progressToken)
             else mret ());;
            mret (Resolved (pending_poll_payload toolName taskId))
        end
      else
        r ← interact (EvCallTool toolName toolargs)
                     (λ tr, downstream_callTool E tr toolName toolargs);
        match r with
        | Resolved toolsResult => mret (Resolved (JObj toolsResult))
        | Rejected _ => mret (Resolved JNull)
        end
  end.

Definition not_found_payload (taskId : string) : json :=
  JObj [("content", JArr [text_content
           ("Error: No active task found with ID " +:+ taskId +:+
            ". It may have already expired or been completed.")])].

(** [{ ...toolsResult, structuredContent: { status: 'COMPLETED', tool } }] *)
Definition completed_payload (toolsResult : obj) (tool : string) : json :=
  JObj (obj_set "structuredContent"
          (JObj [("status", JStr "COMPLETED"); ("tool", JStr tool)])
          toolsResult).

Definition still_pending_payload (taskId tool : string) : json :=
  JObj [("content", JArr [text_content
           ("Task " +:+ taskId +:+
            " is still PENDING human approval. Please wait and check again.")]);
        ("structuredContent",
         JObj [("status", JStr "PENDING"); ("tool", JStr tool)])].

Definition denied_payload (taskId : string) (error : js_error) : json :=
  JObj [("isError", JBool true);
        ("content", JArr [text_content
           ("Task " +:+ taskId +:+ " approval failed or was denied. Status: "
            +:+ or_else (err_error error) "DENIED/FAILED" +:+ ".")])].

(** The [catch] block of [handleTaskStatusCheck]. *)
Definition handleTaskStatusCheck_catch (taskId : string) (error : js_error)
  : M json :=
  pendingTasks_delete taskId;;
  mret (denied_payload taskId error).

Definition handleTaskStatusCheck (taskId : string) : M json :=
  task ← pendingTasks_get taskId;
  match task with
  | None => mret (not_found_payload taskId)
  | Some task =>
      match hitlOobCode task with
      | None => mret (not_found_payload taskId)
      | Some oobCode =>
          if bool_decide (oobCode = "") then mret (not_found_payload taskId)
          else
            r ← interact (EvCheckForApproval oobCode)
                         (λ tr, checkForApproval E tr oobCode);
            match r with
            | Rejected error => handleTaskStatusCheck_catch taskId error
            | Resolved answer =>
                if bool_decide (answer = "APPROVED") then
                  r' ← interact (EvCallTool (toolName task) (toolArgs task))
                         (λ tr, downstream_callTool E tr (toolName task) (toolArgs task));
                  match r' with
                  | Rejected error => handleTaskStatusCheck_catch taskId error
                  | Resolved toolsResult =>
                      pendingTasks_delete taskId;;
                      mret (completed_payload toolsResult (toolName task))
                  end
                else mret (still_pending_payload taskId (toolName task))
            end
      end
  end.

(** The [while] loop of the [check_task_status] branch.  [fuel] bounds
    the number of times the loop condition is evaluated; [None] means
    the bound was hit (see [poll_total]: four evaluations always
    suffice). *)
Fixpoint poll (fuel : nat) (taskId : string) (startTime : Z) (lastresult : json)
  : M (option json) :=
  match fuel with
  | O => mret None
  | S fuel' =>
      now ← Date_now;
      if (now <? startTime + 10000)%Z then
        result ← handleTaskStatusCheck taskId;
        let lastresult := nullish_coalesce result lastresult in
        let status := opt_chain (opt_chain result "structuredContent") "status" in
        if truthy status && negb (strict_eq_str status "PENDING")
        then mret (Some result)
        else (sleep E 4000;; poll fuel' taskId startTime lastresult)
      else mret (Some lastresult)
  end.

Definition invalid_taskId_payload : json :=
  JObj [("content", JArr [text_content
           "Error: check_task_status requires a valid taskId argument."])].

Definition check_task_status (fuel : nat) (args : json) : M (option json) :=
  if negb (truthy args) || negb (typeof_string (get_prop args "taskId")) then
    mret (Some invalid_taskId_payload)
  else
    match get_prop args "taskId" with
    | JStr taskId =>
        startTime ← Date_now;
        poll fuel taskId startTime JUndefined
    | _ => mret (Some invalid_taskId_payload)
    end.

Definition list_high_risk_tools : outcome json :=
  match MCPServerMap_get MCPServerMap downstreamServerName with
  | None =>
      Rejected (Error "Cannot read properties of undefined (reading 'HighRiskTools')")
  | Some (Inherited _) =>
      Resolved (JObj [("content", JArr [text_content
         "High risk tools are undefined."])])
  | Some (ConfigObject config) =>
      Resolved (JObj [("content", JArr [text_content
         ("High risk tools are " +:+ JSON_stringify_strings (HighRiskTools config)
          +:+ ".")])])
  end.

(** The handler registered for [CallToolRequestSchema], applied to
    [request.params = { name, arguments, _meta }]. *)
Definition CallToolRequest_handler (fuel : nat)
    (name : string) (arguments : json) (meta : json)
  : M (option (outcome json)) :=
  let progressToken := opt_chain meta "progressToken" in
  if bool_decide (name = "check_task_status") then
    r ← check_task_status fuel arguments;
    mret (Resolved <$> r)
  else if bool_decide (name = "list_high_risk_tools") then
    mret (Some list_high_risk_tools)
  else
    r ← callTool name arguments progressToken;
    mret (Some r).

Definition checkStatusToolDefinition : json :=
  JObj [("name", JStr "check_task_status");
        ("description", JStr "Checks the current approval status of a previously requested high-risk task using its Task ID. Required for Human-In-The-Loop tasks.");
        ("inputSchema",
         JObj [("type", JStr "object");
               ("properties",
                JObj [("taskId",
                       JObj [("type", JStr "string");
                             ("description", JStr "The unique Task ID returned in the structured content of the pending tool call.")])]);
               ("required", JArr [JStr "taskId"])])].

Definition ListHighRiskToolDefinition : json :=
  JObj [("name", JStr "list_high_risk_tools");
        ("description", JStr ("Displays a list of " +:+ dquote +:+ "High Risk" +:+ dquote +:+ " tools that require approval as part of Human-In-The-Loop tasks."));
        ("inputSchema",
         JObj [("type", JStr "object");
               ("properties", JObj []);
               ("required", JArr [])])].

(** The handler registered for [ListToolsRequestSchema]. *)
Definition ListToolsRequest_handler : M json :=
  downstreamTools ← getTools;
  mret (JObj [("tools", JArr (downstreamTools ++
                [checkStatusToolDefinition; ListHighRiskToolDefinition]))]).

End HITLProxy.

(** ** Start-up *)

(** [var MCPServername = "MCPServer"; if (process.argv.length > 2)
    MCPServername = process.argv[2]] *)
Definition select_server_name (argv : list string) : string :=
  if (2 <? length argv)%nat then default "MCPServer" (argv !! 2%nat)
  else "MCPServer".

(** The instance the constructor builds: no task is parked, nothing has
    happened yet. *)
Definition new_HITLProxy (now : Z) : world := World ∅ now [].

(** [HITLProxy.create(serverName)] *)
Definition create (MCPServerMap : gmap string MCPServerConfig)
    (serverName : string) (E : Env) (now : Z) : outcome unit * world :=
  initializeDownstreamConnection MCPServerMap serverName E (new_HITLProxy now).

Inductive process_state : Type :=
| Serving (instance : world)
| Exited (code : Z).

(** The module body: [create(...).then(run).catch(() => process.exit(1))].
    [run] is the outcome of connecting the server to its stdio
    transport. *)
Definition main (MCPServerMap : gmap string MCPServerConfig) (E : Env)
    (argv : list string) (now : Z) (run : world → outcome unit) : process_state :=
  match create MCPServerMap (select_server_name argv) E now with
  | (Resolved _, instance) =>
      match run instance with
      | Resolved _ => Serving instance
      | Rejected _ => Exited 1
      end
  | (Rejected _, _) => Exited 1
  end.

(** ** Handlers cut at their [await]s *)

(** A handler that has started: finished with its answer, or suspended
    at an [await].  Resuming a suspended handler in world [w] runs it up
    to its next [await]: [after w] is the world it leaves and [next w]
    is what remains of it.  Such a run between two [await]s is never
    interrupted; anything may happen between two of them. *)
Inductive proc (A : Type) : Type :=
| Done (a : A)
| Await (next : world → proc A) (after : world → world).
Arguments Done {A} a.
Arguments Await {A} next after.

Definition suspend {A} (step : M (proc A)) : proc A :=
  Await (λ w, (step w).1) (λ w, (step w).2).

(** Resume until the end, with nothing in between. *)
Fixpoint run {A} (p : proc A) (w : world) : A * world :=
  match p with
  | Done a => (a, w)
  | Await next after => run (next w) (after w)
  end.

(** An async function is its synchronous prefix, which yields the
    started handler; [run_async] calls it and lets it finish alone. *)
Definition run_async {A} (f : M (proc A)) : M A :=
  λ w, run (f w).1 (f w).2.

(** [await p] followed by [k]: the continuation runs in a resumption of
    its own once [p] has finished. *)
Fixpoint await {A B} (p : proc A) (k : A → M (proc B)) : proc B :=
  match p with
  | Done a => suspend (k a)
  | Await next after => Await (λ w, await (next w) k) after
  end.

(** [await] of a call to a collaborator: the resumption sees the
    answer, logs it, and goes on with [k]. *)
Definition await_io {A B} (ev : A → event) (answer : list event → A * N)
    (k : A → M (proc B)) : proc B :=
  suspend (a ← interact ev answer; k a).

Fixpoint proc_map {A B} (f : A → B) (p : proc A) : proc B :=
  match p with
  | Done a => Done (f a)
  | Await next after => Await (λ w, proc_map f (next w)) after
  end.

(** The timer set at clock value [wake - ms] fires: the clock is then
    at [wake] or later. *)
Definition timer_fires (E : Env) (ms wake : Z) : M unit :=
  λ w, (tt, World (pendingTasks w)
                  (Z.max (clock w) wake + Z.of_N (lateness E (trace w) ms))
                  (EvSetTimeout ms :: trace w)).

(** [await new Promise(r => setTimeout(r, ms))] followed by [k]. *)
Definition await_timer {B} (E : Env) (ms : Z) (k : M (proc B)) : M (proc B) :=
  λ w, (suspend (timer_fires E ms (clock w + ms);; k), w).

Section Async.
Variable MCPServerMap : gmap string MCPServerConfig.
Variable downstreamServerName : string.
Variable E : Env.

Definition handleTaskStatusCheck_async (taskId : string) : M (proc json) :=
  task ← pendingTasks_get taskId;
  match task with
  | None => mret (Done (not_found_payload taskId))
  | Some task =>
      match hitlOobCode task with
      | None => mret (Done (not_found_payload taskId))
      | Some oobCode =>
          if bool_decide (oobCode = "") then mret (Done (not_found_payload taskId))
          else
            mret (await_io (EvCheckForApproval oobCode)
                    (λ tr, checkForApproval E tr oobCode)
              (λ r,
                 match r with
                 | Rejected error =>
                     payload ← handleTaskStatusCheck_catch taskId error;
                     mret (Done payload)
                 | Resolved answer =>
                     if bool_decide (answer = "APPROVED") then
                       mret (await_io (EvCallTool (toolName task) (toolArgs task))
                               (λ tr, downstream_callTool E tr (toolName task)
                                        (toolArgs task))
                         (λ r',
                            match r' with
                            | Rejected error =>
                                payload ← handleTaskStatusCheck_catch taskId error;
                                mret (Done payload)
                            | Resolved toolsResult =>
                                pendingTasks_delete taskId;;
                                mret (Done (completed_payload toolsResult
                                              (toolName task)))
                            end))
                     else mret (Done (still_pending_payload taskId (toolName task)))
                 end))
      end
  end.

Fixpoint poll_async (fuel : nat) (taskId : string) (startTime : Z)
    (lastresult : json) : M (proc (option json)) :=
  match fuel with
  | O => mret (Done None)
  | S fuel' =>
      now ← Date_now;
      if (now <? startTime + 10000)%Z then
        query ← handleTaskStatusCheck_async taskId;
        mret (await query
          (λ result,
             let lastresult := nullish_coalesce result lastresult in
             let status := opt_chain (opt_chain result "structuredContent") "status" in
             if truthy status && negb (strict_eq_str status "PENDING")
             then mret (Done (Some result))
             else await_timer E 4000 (poll_async fuel' taskId startTime lastresult)))
      else mret (Done (Some lastresult))
  end.

Definition check_task_status_async (fuel : nat) (args : json)
  : M (proc (option json)) :=
  if negb (truthy args) || negb (typeof_string (get_prop args "taskId")) then
    mret (Done (Some invalid_taskId_payload))
  else
    match get_prop args "taskId" with
    | JStr taskId =>
        startTime ← Date_now;
        poll_async fuel taskId startTime JUndefined
    | _ => mret (Done (Some invalid_taskId_payload))
    end.

Definition callTool_async (toolName : string) (toolargs : json)
    (progressToken : json) : M (proc (outcome json)) :=
  match MCPServerMap_get MCPServerMap downstreamServerName with
  | None => mret (Done (Resolved JNull))
  | Some (Inherited _) =>
      mret (Done (Rejected (Error
        "Cannot read properties of undefined (reading 'includes')")))
  | Some (ConfigObject config) =>
      if includes (BlockedTools config) toolName then
        mret (Done (Resolved (blocked_payload toolName)))
      else if includes (HighRiskTools config) toolName then
        now ← Date_now;
        rnd ← interact EvRandom (λ tr, (Math_random E tr, 0%N));
        let taskId := make_taskId now rnd in
        mret (await_io (EvSendApprovalRequest "bob@tables.fake")
                (λ tr, sendApprovalRequest E tr "bob@tables.fake")
          (λ r,
             match r with
             | Rejected error => mret (Done (Resolved (setup_failed_payload error)))
             | Resolved oobCode =>
                 pendingTasks_set taskId
                   {| toolName := toolName; toolArgs := toolargs;
                      status := PENDING; hitlOobCode := Some oobCode |};;
                 if truthy progressToken then
                   mret (suspend
                     (notification "notifications/progress"
                        (progress_params progressToken);;
                      mret (Done (Resolved (pending_poll_payload toolName taskId)))))
                 else mret (Done (Resolved (pending_poll_payload toolName taskId)))
             end))
      else
        mret (await_io (EvCallTool toolName toolargs)
                (λ tr, downstream_callTool E tr toolName toolargs)
          (λ r,
             match r with
             | Resolved toolsResult => mret (Done (Resolved (JObj toolsResult)))
             | Rejected _ => mret (Done (Resolved JNull))
             end))
  end.

Definition getTools_async : M (proc (list json)) :=
  match MCPServerMap_get MCPServerMap downstreamServerName with
  | None => mret (Done [])
  | Some config =>
      mret (await_io EvListTools (downstream_listTools E)
        (λ r,
           match r with
           | Resolved tools => mret (Done tools)
           | Rejected _ => mret (Done [])
           end))
  end.

Definition ListToolsRequest_handler_async : M (proc json) :=
  listing ← getTools_async;
  mret (await listing
    (λ downstreamTools,
       mret (Done (JObj [("tools", JArr (downstreamTools ++
               [checkStatusToolDefinition; ListHighRiskToolDefinition]))])))).

Definition CallToolRequest_handler_async (fuel : nat)
    (name : string) (arguments : json) (meta : json)
  : M (proc (option (outcome json))) :=
  let progressToken := opt_chain meta "progressToken" in
  if bool_decide (name = "check_task_status") then
    polling ← check_task_status_async fuel arguments;
    mret (proc_map (fmap Resolved) polling)
  else if bool_decide (name = "list_high_risk_tools") then
    mret (Done (Some (list_high_risk_tools MCPServerMap downstreamServerName)))
  else
    calling ← callTool_async name arguments progressToken;
    mret (proc_map Some calling).

End Async.

(** ** Sessions *)

Inductive request : Type :=
| CallToolRequest (name : string) (arguments meta : json)
| ListToolsRequest.

(** What a scheduler may do next: take in a request, which runs its
    handler up to the first [await], or resume the [i]-th handler taken
    in so far. *)
Inductive action : Type :=
| Arrive (req : request)
| Resume (i : nat).

Section Session.
Variable MCPServerMap : gmap string MCPServerConfig.
Variable downstreamServerName : string.
Variable E : Env.
Variable fuel : nat.

(** A request whose handler is not interrupted. *)
Definition handle_request (req : request) : M (option (outcome json)) :=
  match req with
  | CallToolRequest name arguments meta =>
      CallToolRequest_handler MCPServerMap downstreamServerName E fuel
        name arguments meta
  | ListToolsRequest =>
      r ← ListToolsRequest_handler MCPServerMap downstreamServerName E;
      mret (Some (Resolved r))
  end.

Definition handle_request_async (req : request)
  : M (proc (option (outcome json))) :=
  match req with
  | CallToolRequest name arguments meta =>
      CallToolRequest_handler_async MCPServerMap downstreamServerName E fuel
        name arguments meta
  | ListToolsRequest =>
      listing ← ListToolsRequest_handler_async MCPServerMap downstreamServerName E;
      mret (proc_map (λ r, Some (Resolved r)) listing)
  end.

Definition act (a : action) (pool : list (proc (option (outcome json))))
    (w : world) : list (proc (option (outcome json))) * world :=
  match a with
  | Arrive req =>
      let '(p, w') := handle_request_async req w in (pool ++ [p], w')
  | Resume i =>
      match pool !! i with
      | Some (Await next after) => (<[i := next w]> pool, after w)
      | _ => (pool, w)
      end
  end.

(** A session: the handlers of the requests taken in, interleaved at
    their [await]s as the schedule says.  The result is the pool of
    handlers, finished or suspended, and the world they leave. *)
Fixpoint serve_from (schedule : list action)
    (pool : list (proc (option (outcome json)))) (w : world)
  : list (proc (option (outcome json))) * world :=
  match schedule with
  | [] => (pool, w)
  | a :: schedule' =>
      let '(pool', w') := act a pool w in serve_from schedule' pool' w'
  end.

Definition serve (schedule : list action) (w : world)
  : list (proc (option (outcome json))) * world :=
  serve_from schedule [] w.

End Session.

(** *** Requests handled in turn *)

(** The number of times a handler has to be resumed before it is done,
    if no other handler runs in between. *)
Fixpoint awaits {A} (p : proc A) (w : world) : nat :=
  match p with
  | Done _ => 0
  | Await next after => S (awaits (next w) (after w))
  end.

(** A session in which every request is handled to the end before the
    next one is taken in. *)
Fixpoint handle_in_turn (cfgs : gmap string MCPServerConfig) (srv : string)
    (E : Env) (fuel : nat) (reqs : list request)
  : M (list (option (outcome json))) :=
  match reqs with
  | [] => mret []
  | req :: reqs' =>
      r ← handle_request cfgs srv E fuel req;
      rs ← handle_in_turn cfgs srv E fuel reqs';
      mret (r :: rs)
  end.

(** The schedule of such a session, for a pool that holds [n] handlers
    already. *)
Fixpoint in_turn (cfgs : gmap string MCPServerConfig) (srv : string)
    (E : Env) (fuel : nat) (reqs : list request) (n : nat) (w : world)
  : list action :=
  match reqs with
  | [] => []
  | req :: reqs' =>
      let p := (handle_request_async cfgs srv E fuel req w).1 in
      let w1 := (handle_request_async cfgs srv E fuel req w).2 in
      Arrive req :: replicate (awaits p w1) (Resume n)
        ++ in_turn cfgs srv E fuel reqs' (S n) (run p w1).2
  end.

(** * Properties *)

(** Unfolds the monad and the primitive effects. *)
Ltac unfold_M :=
  unfold mbind, mret, M_bind, M_ret, interact, Date_now, pendingTasks_get,
    pendingTasks_set, pendingTasks_delete, notification, sleep in *.

(** ** Reading the table *)

Lemma MCPServerMap_get_own (table : gmap string MCPServerConfig) name config :
  table !! name = Some config →
  MCPServerMap_get table name = Some (ConfigObject config).
Proof. intros H. unfold MCPServerMap_get. by rewrite H. Qed.


(** ** Values *)

Lemma get_taskId_is_object (args : json) (taskId : string) :
  get_prop args "taskId" = JStr taskId → truthy args = true.
Proof. by destruct args. Qed.

Lemma status_of_not_found (taskId : string) :
  opt_chain (opt_chain (not_found_payload taskId) "structuredContent") "status"
  = JUndefined.
Proof. reflexivity. Qed.

Lemma status_of_denied (taskId : string) (e : js_error) :
  opt_chain (opt_chain (denied_payload taskId e) "structuredContent") "status"
  = JUndefined.
Proof. reflexivity. Qed.

Lemma status_of_still_pending (taskId tool : string) :
  opt_chain (opt_chain (still_pending_payload taskId tool) "structuredContent") "status"
  = JStr "PENDING".
Proof. reflexivity. Qed.

Lemma obj_get_set_eq (k : string) (v : json) (o : obj) :
  obj_get (obj_set k v o) k = v.
Proof.
  induction o as [|[k' v'] o IH]; simpl.
  - by rewrite bool_decide_eq_true_2.
  - destruct (bool_decide (k' = k)) eqn:Hk; simpl.
    + by rewrite bool_decide_eq_true_2.
    + by rewrite Hk.
Qed.

Lemma obj_get_set_ne (k k0 : string) (v : json) (o : obj) :
  k ≠ k0 → obj_get (obj_set k v o) k0 = obj_get o k0.
Proof.
  intros Hne. induction o as [|[k' v'] o IH]; simpl.
  - by rewrite bool_decide_eq_false_2.
  - destruct (bool_decide (k' = k)) eqn:Hk; simpl.
    + apply bool_decide_eq_true_1 in Hk as ->.
      by rewrite !bool_decide_eq_false_2.
    + by rewrite IH.
Qed.

Lemma status_of_completed (res : obj) (tool : string) :
  opt_chain (opt_chain (completed_payload res tool) "structuredContent") "status"
  = JStr "COMPLETED".
Proof.
  unfold completed_payload, opt_chain; simpl. by rewrite obj_get_set_eq.
Qed.

Lemma tool_of_completed (res : obj) (tool : string) :
  opt_chain (opt_chain (completed_payload res tool) "structuredContent") "tool"
  = JStr tool.
Proof.
  unfold completed_payload, opt_chain; simpl. by rewrite obj_get_set_eq.
Qed.

(** The spread keeps every other property of the downstream result. *)
Lemma completed_keeps_result (res : obj) (tool k : string) :
  k ≠ "structuredContent" →
  get_prop (completed_payload res tool) k = obj_get res k.
Proof. intros Hk. simpl. by apply obj_get_set_ne. Qed.

(** ** One query of the approval channel: [handleTaskStatusCheck] *)

Section Query.
Variable E : Env.

Lemma handleTaskStatusCheck_absent (taskId : string) (w : world) :
  pendingTasks w !! taskId = None →
  handleTaskStatusCheck E taskId w = (not_found_payload taskId, w).
Proof.
  intros Hw. unfold handleTaskStatusCheck. unfold_M. by rewrite Hw.
Qed.

Lemma handleTaskStatusCheck_rejected taskId w (t : task) oob e dt :
  pendingTasks w !! taskId = Some t →
  hitlOobCode t = Some oob → oob ≠ "" →
  checkForApproval E (trace w) oob = (Rejected e, dt) →
  handleTaskStatusCheck E taskId w =
    (denied_payload taskId e,
     World (delete taskId (pendingTasks w)) (clock w + Z.of_N dt)
           (EvCheckForApproval oob (Rejected e) :: trace w)).
Proof.
  intros Hw Ho Hne Hc. unfold handleTaskStatusCheck, handleTaskStatusCheck_catch.
  unfold_M. rewrite Hw, Ho, bool_decide_eq_false_2 by done.
  by rewrite Hc.
Qed.

Lemma handleTaskStatusCheck_waiting taskId w (t : task) oob answer dt :
  pendingTasks w !! taskId = Some t →
  hitlOobCode t = Some oob → oob ≠ "" →
  checkForApproval E (trace w) oob = (Resolved answer, dt) →
  answer ≠ "APPROVED" →
  handleTaskStatusCheck E taskId w =
    (still_pending_payload taskId (toolName t),
     World (pendingTasks w) (clock w + Z.of_N dt)
           (EvCheckForApproval oob (Resolved answer) :: trace w)).
Proof.
  intros Hw Ho Hne Hc Ha. unfold handleTaskStatusCheck. unfold_M.
  rewrite Hw, Ho, bool_decide_eq_false_2 by done.
  by rewrite Hc, bool_decide_eq_false_2.
Qed.

Lemma handleTaskStatusCheck_approved taskId w (t : task) oob dt r dt' :
  pendingTasks w !! taskId = Some t →
  hitlOobCode t = Some oob → oob ≠ "" →
  checkForApproval E (trace w) oob = (Resolved "APPROVED", dt) →
  downstream_callTool E (EvCheckForApproval oob (Resolved "APPROVED") :: trace w)
    (toolName t) (toolArgs t) = (r, dt') →
  handleTaskStatusCheck E taskId w =
    (match r with
     | Resolved res => completed_payload res (toolName t)
     | Rejected e => denied_payload taskId e
     end,
     World (delete taskId (pendingTasks w))
           (clock w + Z.of_N dt + Z.of_N dt')
           (EvCallTool (toolName t) (toolArgs t) r
              :: EvCheckForApproval oob (Resolved "APPROVED") :: trace w)).
Proof.
  intros Hw Ho Hne Hc Hd. unfold handleTaskStatusCheck, handleTaskStatusCheck_catch.
  unfold_M. rewrite Hw, Ho, bool_decide_eq_false_2 by done.
  rewrite Hc, bool_decide_eq_true_2 by done. simpl. rewrite Hd.
  by destruct r.
Qed.

End Query.

(** A parked task that a status check will really poll: it carries a
    non-empty out-of-band code. *)
Definition pollable (w : world) (taskId : string) (t : task) (oob : string) : Prop :=
  pendingTasks w !! taskId = Some t ∧ hitlOobCode t = Some oob ∧ oob ≠ "".

(** The four ways one query can go, as a relation between the world
    before and the payload and world after. *)
Inductive query_step (E : Env) (taskId : string) (w : world) : json → world → Prop :=
| query_not_found :
    (∀ t oob, pendingTasks w !! taskId = Some t →
              hitlOobCode t = Some oob → oob = "") →
    query_step E taskId w (not_found_payload taskId) w
| query_denied t oob e dt :
    pollable w taskId t oob →
    checkForApproval E (trace w) oob = (Rejected e, dt) →
    query_step E taskId w (denied_payload taskId e)
      (World (delete taskId (pendingTasks w)) (clock w + Z.of_N dt)
             (EvCheckForApproval oob (Rejected e) :: trace w))
| query_waiting t oob answer dt :
    pollable w taskId t oob →
    checkForApproval E (trace w) oob = (Resolved answer, dt) →
    answer ≠ "APPROVED" →
    query_step E taskId w (still_pending_payload taskId (toolName t))
      (World (pendingTasks w) (clock w + Z.of_N dt)
             (EvCheckForApproval oob (Resolved answer) :: trace w))
| query_executed t oob dt r dt' :
    pollable w taskId t oob →
    checkForApproval E (trace w) oob = (Resolved "APPROVED", dt) →
    downstream_callTool E (EvCheckForApproval oob (Resolved "APPROVED") :: trace w)
      (toolName t) (toolArgs t) = (r, dt') →
    query_step E taskId w
      (match r with
       | Resolved res => completed_payload res (toolName t)
       | Rejected e => denied_payload taskId e
       end)
      (World (delete taskId (pendingTasks w))
             (clock w + Z.of_N dt + Z.of_N dt')
             (EvCallTool (toolName t) (toolArgs t) r
                :: EvCheckForApproval oob (Resolved "APPROVED") :: trace w)).

Lemma handleTaskStatusCheck_step (E : Env) (taskId : string) (w : world) :
  query_step E taskId w (handleTaskStatusCheck E taskId w).1
                        (handleTaskStatusCheck E taskId w).2.
Proof.
  destruct (pendingTasks w !! taskId) as [t|] eqn:Hw.
  2:{ rewrite handleTaskStatusCheck_absent by done. simpl. constructor.
      intros; congruence. }
  destruct (hitlOobCode t) as [oob|] eqn:Ho.
  2:{ unfold handleTaskStatusCheck. unfold_M. rewrite Hw, Ho. simpl.
      constructor. intros; congruence. }
  destruct (decide (oob = "")) as [->|Hne].
  { unfold handleTaskStatusCheck. unfold_M. rewrite Hw, Ho. simpl.
    constructor. intros; congruence. }
  destruct (checkForApproval E (trace w) oob) as [[answer|e] dt] eqn:Hc.
  2:{ erewrite handleTaskStatusCheck_rejected by done. simpl.
      by econstructor. }
  destruct (decide (answer = "APPROVED")) as [->|Ha].
  2:{ erewrite handleTaskStatusCheck_waiting by done. simpl.
      by econstructor. }
  destruct (downstream_callTool E
              (EvCheckForApproval oob (Resolved "APPROVED") :: trace w)
              (toolName t) (toolArgs t)) as [r dt'] eqn:Hd.
  erewrite handleTaskStatusCheck_approved by done. simpl.
  by econstructor.
Qed.

(** A trace segment (newest event first) in which every downstream call
    sits directly on top of the approval-channel answer ["APPROVED"]. *)
Fixpoint gated (seg : list event) : bool :=
  match seg with
  | [] => true
  | EvCallTool _ _ _ :: rest =>
      match rest with
      | EvCheckForApproval _ (Resolved answer) :: _ =>
          bool_decide (answer = "APPROVED") && gated rest
      | _ => false
      end
  | _ :: rest => gated rest
  end.

Lemma gated_app (seg1 seg2 : list event) :
  gated seg1 = true → gated seg2 = true → gated (seg1 ++ seg2) = true.
Proof.
  intros H1 H2. induction seg1 as [|e seg1 IH]; [done|].
  destruct e; simpl in *; auto.
  destruct seg1 as [|[] seg1]; try done.
  destruct r0; try done. simpl in *.
  apply andb_prop in H1 as [-> H1]. simpl. by apply IH.
Qed.

(** What any single query does to the world. *)
Lemma query_step_effects E taskId w payload w' :
  query_step E taskId w payload w' →
  (clock w ≤ clock w')%Z
  ∧ (∃ seg, trace w' = seg ++ trace w ∧ gated seg = true)
  ∧ (∀ k, pendingTasks w' !! k = None ∨ pendingTasks w' !! k = pendingTasks w !! k)
  ∧ (∀ k, k ≠ taskId → pendingTasks w' !! k = pendingTasks w !! k).
Proof.
  destruct 1; simpl; (split; [lia|]); (split; [|split]).
  - by exists [].
  - auto.
  - auto.
  - by eexists [_].
  - intros k. destruct (decide (k = taskId)) as [->|];
      [left; apply lookup_delete_eq | right; by apply lookup_delete_ne].
  - intros k Hk. by apply lookup_delete_ne.
  - by eexists [_].
  - auto.
  - auto.
  - by eexists [_; _].
  - intros k. destruct (decide (k = taskId)) as [->|];
      [left; apply lookup_delete_eq | right; by apply lookup_delete_ne].
  - intros k Hk. by apply lookup_delete_ne.
Qed.

(** ** The bounded wait: [poll] *)

Section Poll.
Variable E : Env.

Lemma poll_unfold fuel taskId startTime lastresult w :
  poll E (S fuel) taskId startTime lastresult w =
    if (clock w <? startTime + 10000)%Z then
      let '(result, w1) := handleTaskStatusCheck E taskId w in
      let status := opt_chain (opt_chain result "structuredContent") "status" in
      if truthy status && negb (strict_eq_str status "PENDING")
      then (Some result, w1)
      else poll E fuel taskId startTime (nullish_coalesce result lastresult)
             (sleep E 4000 w1).2
    else (Some lastresult, w).
Proof.
  simpl. unfold_M.
  destruct (clock w <? startTime + 10000)%Z; [|done].
  destruct (handleTaskStatusCheck E taskId w) as [result w1].
  by destruct (truthy _ && _).
Qed.

(** The loop ends: every pass through the body sleeps for at least
    4000 ms, so once the clock is within [4000 * k] of the deadline,
    [k + 1] evaluations of the loop condition are enough. *)
Lemma poll_total (k fuel : nat) taskId startTime lastresult w :
  (k < fuel)%nat →
  (startTime + 10000 - 4000 * Z.of_nat k ≤ clock w)%Z →
  is_Some (poll E fuel taskId startTime lastresult w).1.
Proof.
  revert fuel lastresult w.
  induction k as [|k IH]; intros [|fuel] lastresult w Hf Hk; try lia.
  - rewrite poll_unfold.
    destruct (Z.ltb_spec (clock w) (startTime + 10000)); [lia|].
    by eexists.
  - rewrite poll_unfold.
    destruct (Z.ltb_spec (clock w) (startTime + 10000)); [|by eexists].
    pose proof (handleTaskStatusCheck_step E taskId w) as Hstep.
    apply query_step_effects in Hstep as (Hclk & _).
    destruct (handleTaskStatusCheck E taskId w) as [result w1]; simpl in *.
    destruct (truthy _ && _); [by eexists|].
    apply IH; [lia|]. simpl. lia.
Qed.

(** More fuel does not change a result. *)
Lemma poll_fuel_mono fuel fuel' taskId startTime lastresult w r w' :
  (fuel ≤ fuel')%nat →
  poll E fuel taskId startTime lastresult w = (Some r, w') →
  poll E fuel' taskId startTime lastresult w = (Some r, w').
Proof.
  revert fuel' lastresult w.
  induction fuel as [|fuel IH]; intros [|fuel'] lastresult w Hle; try lia.
  - done.
  - done.
  - rewrite !poll_unfold.
    destruct (clock w <? startTime + 10000)%Z; [|done].
    destruct (handleTaskStatusCheck E taskId w) as [result w1]; simpl.
    destruct (truthy _ && _); [done|].
    apply IH. lia.
Qed.

(** Whatever the loop does, it only polls and sleeps, and it runs the
    downstream tool only directly after an ["APPROVED"] answer. *)
Lemma poll_effects fuel taskId startTime lastresult w :
  let w' := (poll E fuel taskId startTime lastresult w).2 in
  (∃ seg, trace w' = seg ++ trace w ∧ gated seg = true)
  ∧ (∀ k, pendingTasks w' !! k = None ∨ pendingTasks w' !! k = pendingTasks w !! k)
  ∧ (∀ k, k ≠ taskId → pendingTasks w' !! k = pendingTasks w !! k).
Proof.
  revert lastresult w. induction fuel as [|fuel IH]; intros lastresult w.
  { simpl. split; [by exists []|]. auto. }
  rewrite poll_unfold.
  destruct (clock w <? startTime + 10000)%Z.
  2:{ simpl. split; [by exists []|]. auto. }
  pose proof (handleTaskStatusCheck_step E taskId w) as Hstep.
  apply query_step_effects in Hstep as (_ & (seg & Htr & Hg) & Hdom & Hoth).
  destruct (handleTaskStatusCheck E taskId w) as [result w1]; simpl in *.
  destruct (truthy _ && _); simpl.
  { split; [by exists seg|]. auto. }
  specialize (IH (nullish_coalesce result lastresult) (sleep E 4000 w1).2).
  simpl in IH. destruct IH as ((seg' & Htr' & Hg') & Hdom' & Hoth').
  split; [|split].
  - exists (seg' ++ EvSetTimeout 4000 :: seg). split.
    + rewrite Htr', Htr. by rewrite <- app_assoc.
    + apply gated_app; [done|]. done.
  - intros k. destruct (Hdom' k) as [Hn | Hn]; rewrite Hn; auto.
  - intros k Hk. rewrite Hoth', Hoth; auto.
Qed.

End Poll.

(** ** Status checks for unknown tasks and for malformed requests *)

Lemma replicate_snoc_cons {A} (n : nat) (x : A) (l : list A) :
  replicate n x ++ x :: l = replicate (S n) x ++ l.
Proof. induction n as [|n IH]; simpl; [done|]. by rewrite IH. Qed.

(** Polling an identifier that is not parked: nothing but sleeps. *)
Lemma poll_absent (E : Env) fuel taskId startTime lastresult w r w' :
  pendingTasks w !! taskId = None →
  poll E fuel taskId startTime lastresult w = (Some r, w') →
  ∃ n : nat,
    trace w' = replicate n (EvSetTimeout 4000) ++ trace w
    ∧ pendingTasks w' = pendingTasks w
    ∧ ((n = 0%nat ∧ r = lastresult ∧ (startTime + 10000 ≤ clock w)%Z)
       ∨ ((0 < n)%nat ∧ r = not_found_payload taskId
          ∧ (clock w + 4000 * (Z.of_nat n - 1) < startTime + 10000)%Z)).
Proof.
  revert lastresult w. induction fuel as [|fuel IH]; intros lastresult w Hw; [done|].
  rewrite poll_unfold.
  destruct (Z.ltb_spec (clock w) (startTime + 10000)).
  2:{ intros [= <- <-]. exists 0%nat. split; [done|]. split; [done|]. by left. }
  rewrite handleTaskStatusCheck_absent by done. simpl.
  intros Hp. apply IH in Hp; [|done].
  destruct Hp as (n & Htr & Hpt & Hn). simpl in *.
  exists (S n). split; [by rewrite Htr, replicate_snoc_cons|].
  split; [done|]. right.
  destruct Hn as [(-> & -> & _)|(Hpos & -> & Hclk)].
  - split; [lia|]. split; [done|]. simpl. lia.
  - split; [lia|]. split; [done|]. lia.
Qed.

(** Four evaluations of the loop condition always suffice, and a larger
    bound gives the same answer: the bound is no parameter of the
    behaviour. *)
Lemma check_task_status_total (E : Env) (fuel : nat) (args : json) (w : world) :
  (4 ≤ fuel)%nat →
  is_Some (check_task_status E fuel args w).1
  ∧ check_task_status E fuel args w = check_task_status E 4 args w.
Proof.
  intros Hfuel. unfold check_task_status.
  destruct (negb (truthy args) || negb (typeof_string (get_prop args "taskId")));
    [by split; [eexists|]|].
  destruct (get_prop args "taskId") as [| | | |taskId| |]; try by split; [eexists|].
  unfold_M.
  destruct (poll_total E 3 4 taskId (clock w) JUndefined w) as [r Hr]; [lia|lia|].
  destruct (poll E 4 taskId (clock w) JUndefined w) as [o w'] eqn:Hp.
  simpl in Hr. subst o.
  rewrite (poll_fuel_mono E 4 fuel _ _ _ _ _ _ Hfuel Hp). split; [by eexists|done].
Qed.

(** No request parks a task under an identifier other than the one a
    high-risk call draws from the clock and the random source. *)
Lemma handler_parks_only_the_drawn_id
    (cfgs : gmap string MCPServerConfig) (srv : string) (E : Env)
    (fuel : nat) (name : string) (arguments meta : json) (w : world) (k : string) :
  pendingTasks w !! k = None →
  k ≠ make_taskId (clock w) (Math_random E (trace w)) →
  pendingTasks (CallToolRequest_handler cfgs srv E fuel name arguments meta w).2 !! k
  = None.
Proof.
  intros Hk Hne. unfold CallToolRequest_handler.
  destruct (bool_decide (name = "check_task_status")).
  { unfold check_task_status.
    destruct (negb (truthy arguments) || _); [done|].
    destruct (get_prop arguments "taskId") as [| | | |taskId| |]; try done.
    unfold_M.
    pose proof (poll_effects E fuel taskId (clock w) JUndefined w) as (_ & Hdom & _).
    destruct (poll E fuel taskId (clock w) JUndefined w) as [o w']. simpl in *.
    destruct (Hdom k) as [Hn | Hn]; by rewrite Hn. }
  destruct (bool_decide (name = "list_high_risk_tools")); [done|].
  unfold callTool. unfold_M.
  destruct (MCPServerMap_get cfgs srv) as [[config|inherited]|]; [|done|done].
  destruct (includes (BlockedTools config) name); [done|].
  destruct (includes (HighRiskTools config) name).
  - simpl. destruct (sendApprovalRequest E _ _) as [[oob|e] dt]; simpl; [|done].
    destruct (truthy _); simpl; by rewrite lookup_insert_ne.
  - destruct (downstream_callTool E _ _ _) as [[res|e] dt]; done.
Qed.

(** C10: a [check_task_status] request whose arguments are absent, or
    whose [taskId] is not a string, is answered at once with the
    error-text payload.  The world is returned unchanged -- no poll of
    the approval channel, no downstream call, no timer, no change to
    [pendingTasks] -- and this for any bound on the loop, including
    zero: the loop is never entered.  The payload has neither an
    [isError] nor a [structuredContent] property. *)
Theorem check_task_status_rejects_bad_arguments
    (cfgs : gmap string MCPServerConfig) (srv : string) (E : Env)
    (fuel : nat) (args meta : json) (w : world) :
  args = JUndefined ∨ typeof_string (get_prop args "taskId") = false →
  CallToolRequest_handler cfgs srv E fuel "check_task_status" args meta w
    = (Some (Resolved invalid_taskId_payload), w)
  ∧ get_prop invalid_taskId_payload "isError" = JUndefined
  ∧ get_prop invalid_taskId_payload "structuredContent" = JUndefined.
Proof.
  intros Hargs. split; [|done].
  assert (typeof_string (get_prop args "taskId") = false) as Hty
    by (destruct Hargs as [->|]; done).
  unfold CallToolRequest_handler, check_task_status. simpl. unfold_M.
  rewrite Hty. by rewrite orb_true_r.
Qed.

Lemma check_task_status_rejects_bad_arguments_witness :
  CallToolRequest_handler (static_MCPServerMap "secret") "todo-mcp-server"
    {| Math_random := λ _, [];
       sendApprovalRequest := λ _ _, (Resolved "oob", 0%N);
       checkForApproval := λ _ _, (Resolved "APPROVED", 0%N);
       downstream_callTool := λ _ _ _, (Resolved [], 0%N);
       downstream_listTools := λ _, (Resolved [], 0%N);
       downstream_connect := λ _ _, (Resolved (), 0%N);
       lateness := λ _ _, 0%N |}
    4 "check_task_status" (JObj [("taskId", JNum 7)]) JUndefined
    (World {[ "task-7-abcd" := Task "add_todos" JNull PENDING (Some "oob") ]} 7 [])
  = (Some (Resolved invalid_taskId_payload),
     World {[ "task-7-abcd" := Task "add_todos" JNull PENDING (Some "oob") ]} 7 [])
  ∧ get_prop invalid_taskId_payload "isError" = JUndefined
  ∧ get_prop invalid_taskId_payload "structuredContent" = JUndefined.
Proof.
  apply check_task_status_rejects_bad_arguments. right. reflexivity.
Defined.

(** C6: a status check for an identifier that is not in [pendingTasks]
    yields the not-found payload, never polls the approval channel and
    leaves [pendingTasks] as it was.  This holds for the single query
    [handleTaskStatusCheck], which returns the world untouched, and for
    the whole [check_task_status] request, whose only effects are one to
    three 4000 ms timers of the bounded wait. *)
Theorem unknown_task_is_not_found
    (cfgs : gmap string MCPServerConfig) (srv : string) (E : Env)
    (fuel : nat) (taskId : string) (args meta : json) (w : world) :
  pendingTasks w !! taskId = None →
  get_prop args "taskId" = JStr taskId →
  (4 ≤ fuel)%nat →
  handleTaskStatusCheck E taskId w = (not_found_payload taskId, w)
  ∧ ∃ (n : nat) (w' : world),
      CallToolRequest_handler cfgs srv E fuel "check_task_status" args meta w
        = (Some (Resolved (not_found_payload taskId)), w')
      ∧ pendingTasks w' = pendingTasks w
      ∧ trace w' = replicate n (EvSetTimeout 4000) ++ trace w
      ∧ (1 ≤ n ≤ 3)%nat.
Proof.
  intros Hw Hargs Hfuel. split; [by apply handleTaskStatusCheck_absent|].
  unfold CallToolRequest_handler, check_task_status. simpl. unfold_M.
  rewrite Hargs, (get_taskId_is_object _ _ Hargs). simpl.
  destruct (poll_total E 3 fuel taskId (clock w) JUndefined w) as [r Hr];
    [lia|lia|].
  destruct (poll E fuel taskId (clock w) JUndefined w) as [o w'] eqn:Hp.
  simpl in Hr. subst o.
  destruct (poll_absent _ _ _ _ _ _ _ _ Hw Hp) as (n & Htr & Hpt & Hn).
  destruct Hn as [(_ & _ & ?)|(Hpos & -> & Hclk)]; [lia|].
  exists n, w'. simpl. repeat split; auto; lia.
Qed.

Lemma unknown_task_is_not_found_witness :
  let E := {| Math_random := λ _, [];
              sendApprovalRequest := λ _ _, (Resolved "oob", 0%N);
              checkForApproval := λ _ _, (Resolved "APPROVED", 0%N);
              downstream_callTool := λ _ _ _, (Resolved [], 0%N);
              downstream_listTools := λ _, (Resolved [], 0%N);
              downstream_connect := λ _ _, (Resolved (), 0%N);
              lateness := λ _ _, 0%N |} in
  let w := World {[ "task-7-abcd" := Task "add_todos" JNull PENDING (Some "oob") ]} 7 [] in
  handleTaskStatusCheck E "task-9-zzzz" w = (not_found_payload "task-9-zzzz", w)
  ∧ ∃ (n : nat) (w' : world),
      CallToolRequest_handler (static_MCPServerMap "secret") "todo-mcp-server" E 4
        "check_task_status" (JObj [("taskId", JStr "task-9-zzzz")]) JUndefined w
        = (Some (Resolved (not_found_payload "task-9-zzzz")), w')
      ∧ pendingTasks w' = pendingTasks w
      ∧ trace w' = replicate n (EvSetTimeout 4000) ++ trace w
      ∧ (1 ≤ n ≤ 3)%nat.
Proof.
  intros E w.
  apply unknown_task_is_not_found; [vm_compute; reflexivity | reflexivity | lia].
Defined.

(** ** Blocked tools *)

(** C4: a tool named in [BlockedTools] is refused with an [isError]
    payload and the world is returned unchanged: no task is parked, no
    approval request is sent, the downstream server is not contacted.
    Nothing is assumed about [HighRiskTools]: a name found in both lists
    is blocked.  The request handler passes the refusal on as it is. *)
Theorem blocked_tool_is_refused
    (cfgs : gmap string MCPServerConfig) (srv : string) (E : Env)
    (config : MCPServerConfig) (name : string) (toolargs progressToken : json)
    (w : world) :
  cfgs !! srv = Some config →
  name ∈ BlockedTools config →
  callTool cfgs srv E name toolargs progressToken w
    = (Resolved (blocked_payload name), w)
  ∧ get_prop (blocked_payload name) "isError" = JBool true
  ∧ ∀ (fuel : nat) (meta : json),
      name ≠ "check_task_status" → name ≠ "list_high_risk_tools" →
      CallToolRequest_handler cfgs srv E fuel name toolargs meta w
        = (Some (Resolved (blocked_payload name)), w).
Proof.
  intros Hcfg Hin.
  assert (∀ tok, callTool cfgs srv E name toolargs tok w
                 = (Resolved (blocked_payload name), w))
    as Hcall.
  { intros tok. unfold callTool. rewrite (MCPServerMap_get_own _ _ _ Hcfg).
    unfold includes. by rewrite bool_decide_eq_true_2. }
  split; [apply Hcall|]. split; [done|].
  intros fuel meta H1 H2. unfold CallToolRequest_handler.
  rewrite !bool_decide_eq_false_2 by done. unfold_M. by rewrite Hcall.
Qed.

Lemma blocked_tool_is_refused_witness :
  let E := {| Math_random := λ _, [];
              sendApprovalRequest := λ _ _, (Resolved "oob", 0%N);
              checkForApproval := λ _ _, (Resolved "APPROVED", 0%N);
              downstream_callTool := λ _ _ _, (Resolved [], 0%N);
              downstream_listTools := λ _, (Resolved [], 0%N);
              downstream_connect := λ _ _, (Resolved (), 0%N);
              lateness := λ _ _, 0%N |} in
  let both := {| command := "node"; args := []; env := [];
                 HighRiskTools := ["wipe"; "add_todos"];
                 BlockedTools := ["wipe"] |} in
  let w := World ∅ 7 [] in
  callTool {[ "srv" := both ]} "srv" E "wipe" JNull JUndefined w
    = (Resolved (blocked_payload "wipe"), w)
  ∧ get_prop (blocked_payload "wipe") "isError" = JBool true
  ∧ ∀ (fuel : nat) (meta : json),
      "wipe" ≠ "check_task_status" → "wipe" ≠ "list_high_risk_tools" →
      CallToolRequest_handler {[ "srv" := both ]} "srv" E fuel "wipe" JNull meta w
        = (Some (Resolved (blocked_payload "wipe")), w).
Proof.
  intros E both w.
  apply (blocked_tool_is_refused {[ "srv" := both ]} "srv" E both);
    [vm_compute; reflexivity | compute_done].
Defined.

(** ** Forwarded tools *)

(** A tool that is neither blocked nor high-risk: one downstream call,
    no task, and the resolved result handed back as it is.  A rejected
    call is caught and [null] is returned. *)
Lemma callTool_normal
    (cfgs : gmap string MCPServerConfig) (srv : string) (E : Env)
    (config : MCPServerConfig) (name : string) (toolargs progressToken : json)
    (w : world) (r : outcome obj) (dt : N) :
  cfgs !! srv = Some config →
  name ∉ BlockedTools config →
  name ∉ HighRiskTools config →
  downstream_callTool E (trace w) name toolargs = (r, dt) →
  callTool cfgs srv E name toolargs progressToken w =
    (Resolved
       (match r with Resolved toolsResult => JObj toolsResult | Rejected _ => JNull end),
     World (pendingTasks w) (clock w + Z.of_N dt)
           (EvCallTool name toolargs r :: trace w)).
Proof.
  intros Hcfg Hb Hh Hd. unfold callTool, includes.
  rewrite (MCPServerMap_get_own _ _ _ Hcfg).
  rewrite !bool_decide_eq_false_2 by done. unfold_M. rewrite Hd.
  by destruct r.
Qed.

(** Collaborators used in the examples below: the approval service
    accepts every request and answers every poll with [answer]; the
    downstream server answers every call with [reply]; nothing takes any
    time and timers fire on time. *)
Definition scripted_env (rnd : list N) (answer : outcome string)
    (reply : outcome obj) : Env := {|
  Math_random := λ _, rnd;
  sendApprovalRequest := λ _ _, (Resolved "oob-1", 0%N);
  checkForApproval := λ _ _, (answer, 0%N);
  downstream_callTool := λ _ _ _, (reply, 0%N);
  downstream_listTools := λ _, (Resolved [], 0%N);
  downstream_connect := λ _ _, (Resolved (), 0%N);
  lateness := λ _ _, 0%N;
|}.

(** C9, at the failing input.  [get_todos] is neither blocked nor
    high-risk for [todo-mcp-server]; the downstream call is rejected.
    The call is forwarded once and the rejection does not propagate, but
    what comes back from [callTool], and from the request handler, is
    [null]: not an error payload. *)
Theorem callTool_downstream_failure_returns_null :
  let E := scripted_env [] (Resolved "PENDING") (Rejected (Error "Request timed out")) in
  let w := World ∅ 1700000000000 [] in
  let w' := World ∅ 1700000000000
              [EvCallTool "get_todos" (JObj []) (Rejected (Error "Request timed out"))] in
  callTool (static_MCPServerMap "secret") "todo-mcp-server" E
    "get_todos" (JObj []) JUndefined w = (Resolved JNull, w')
  ∧ CallToolRequest_handler (static_MCPServerMap "secret") "todo-mcp-server" E 4
      "get_todos" (JObj []) JUndefined w = (Some (Resolved JNull), w').
Proof. by vm_compute. Qed.

(** ** Denied tasks and the bounded wait *)

(** One query that the channel rejects: the error payload, the task is
    gone, the downstream server is not contacted, and the next query no
    longer finds the task. *)
Lemma handleTaskStatusCheck_denied (E : Env) taskId w (t : task) oob e dt :
  pollable w taskId t oob →
  checkForApproval E (trace w) oob = (Rejected e, dt) →
  ∃ w',
    handleTaskStatusCheck E taskId w = (denied_payload taskId e, w')
    ∧ get_prop (denied_payload taskId e) "isError" = JBool true
    ∧ pendingTasks w' = delete taskId (pendingTasks w)
    ∧ trace w' = EvCheckForApproval oob (Rejected e) :: trace w
    ∧ ∀ E', handleTaskStatusCheck E' taskId w' = (not_found_payload taskId, w').
Proof.
  intros (Hw & Ho & Hne) Hc. eexists. split.
  { by eapply handleTaskStatusCheck_rejected. }
  simpl. repeat split; try done.
  intros E'. apply handleTaskStatusCheck_absent. simpl. apply lookup_delete_eq.
Qed.

(** The request handler loses that payload whenever the window is still
    open after the sleep that follows the denial: the loop does not stop
    on a payload without [structuredContent.status], polls again, finds
    the task gone, and ends up returning the not-found payload. *)
Lemma check_task_status_denial_overwritten
    (cfgs : gmap string MCPServerConfig) (srv : string) (E : Env)
    (fuel : nat) taskId (args meta : json) w (t : task) oob e dt :
  pollable w taskId t oob →
  checkForApproval E (trace w) oob = (Rejected e, dt) →
  get_prop args "taskId" = JStr taskId →
  (4 ≤ fuel)%nat →
  (Z.of_N dt + 4000
     + Z.of_N (lateness E (EvCheckForApproval oob (Rejected e) :: trace w) 4000)
   < 10000)%Z →
  ∃ w',
    CallToolRequest_handler cfgs srv E fuel "check_task_status" args meta w
      = (Some (Resolved (not_found_payload taskId)), w')
    ∧ pendingTasks w' = delete taskId (pendingTasks w).
Proof.
  intros (Hw & Ho & Hne) Hc Hargs Hfuel Hlate.
  unfold CallToolRequest_handler, check_task_status. simpl. unfold_M.
  rewrite Hargs, (get_taskId_is_object _ _ Hargs). simpl.
  destruct (poll_total E 3 fuel taskId (clock w) JUndefined w) as [r Hr];
    [lia|lia|].
  destruct (poll E fuel taskId (clock w) JUndefined w) as [o w'] eqn:Hp.
  simpl in Hr. subst o. exists w'.
  destruct fuel as [|fuel]; [lia|].
  rewrite poll_unfold in Hp.
  destruct (Z.ltb_spec (clock w) (clock w + 10000)); [|lia].
  erewrite handleTaskStatusCheck_rejected in Hp by done. simpl in Hp.
  apply poll_absent in Hp; [|simpl; apply lookup_delete_eq].
  destruct Hp as (n & _ & Hpt & Hn). simpl in *.
  destruct Hn as [(_ & _ & ?)|(_ & -> & _)]; [lia|]. done.
Qed.

(** While the channel keeps answering without approving, the loop
    returns the last still-pending payload once the window is over, and
    the task stays parked. *)
Lemma poll_still_pending (E : Env) fuel taskId startTime lastresult w
    (t : task) oob r w' :
  pollable w taskId t oob →
  (∀ tr, ∃ answer dt, checkForApproval E tr oob = (Resolved answer, dt)
                      ∧ answer ≠ "APPROVED") →
  poll E fuel taskId startTime lastresult w = (Some r, w') →
  pendingTasks w' = pendingTasks w
  ∧ (startTime + 10000 ≤ clock w')%Z
  ∧ (r = lastresult ∨ r = still_pending_payload taskId (toolName t)).
Proof.
  intros Hpoll Hwait. revert lastresult w Hpoll.
  induction fuel as [|fuel IH]; intros lastresult w Hpoll; [done|].
  rewrite poll_unfold.
  destruct (Z.ltb_spec (clock w) (startTime + 10000)).
  2:{ intros [= <- <-]. auto. }
  destruct (Hwait (trace w)) as (answer & dt & Hc & Ha).
  destruct Hpoll as (Hw & Ho & Hne).
  erewrite handleTaskStatusCheck_waiting by done. simpl.
  intros Hp. apply IH in Hp; [|done].
  destruct Hp as (Hpt & Hclk & [->| ->]); auto.
Qed.

(** C5, at a failing input.  The first query of a parked task is
    rejected by the channel (the approver denied the push), so its
    result, the [isError] payload, is not a PENDING one.  The handler
    does not return at that point: it sleeps for 4000 ms three times,
    polling in between, and only gives up twelve seconds later, with
    the not-found payload of its last query. *)
Theorem poll_continues_after_denial :
  let denial := JsError (Some "The user denied the request") (Some "access_denied") None in
  let E := scripted_env [] (Rejected denial) (Resolved []) in
  let taskId := "task-1700000000000-k3x9" in
  let w := World {[ taskId := Task "add_todos" (JObj [("title", JStr "x")])
                                   PENDING (Some "oob-1") ]}
                 1700000005000 [] in
  (handleTaskStatusCheck E taskId w).1 = denied_payload taskId denial
  ∧ opt_chain (opt_chain (denied_payload taskId denial) "structuredContent") "status"
    ≠ JStr "PENDING"
  ∧ CallToolRequest_handler (static_MCPServerMap "secret") "todo-mcp-server" E 4
      "check_task_status" (JObj [("taskId", JStr taskId)]) JUndefined w
    = (Some (Resolved (not_found_payload taskId)),
       World ∅ 1700000017000
         [EvSetTimeout 4000; EvSetTimeout 4000; EvSetTimeout 4000;
          EvCheckForApproval "oob-1" (Rejected denial)]).
Proof. by vm_compute. Qed.

(** C3, at a failing input.  The channel fails with a network error on
    the query of a parked task.  The task is removed and the downstream
    server is not contacted, but the payload that reaches the caller of
    [check_task_status] is the not-found text of a later iteration: it
    has no [isError] flag and none of the failure detail. *)
Theorem denied_status_check_returns_not_found :
  let failure := JsError (Some "fetch failed") None None in
  let E := scripted_env [] (Rejected failure) (Resolved []) in
  let taskId := "task-1700000000000-ab12" in
  let w := World {[ taskId := Task "add_todos" (JObj [("title", JStr "x")])
                                   PENDING (Some "oob-1") ]}
                 1700000001000 [] in
  let out := CallToolRequest_handler (static_MCPServerMap "secret") "todo-mcp-server"
               E 4 "check_task_status" (JObj [("taskId", JStr taskId)]) JUndefined w in
  out.1 = Some (Resolved (not_found_payload taskId))
  ∧ get_prop (not_found_payload taskId) "isError" = JUndefined
  ∧ pendingTasks out.2 = ∅
  ∧ trace out.2 = [EvSetTimeout 4000; EvSetTimeout 4000; EvSetTimeout 4000;
                   EvCheckForApproval "oob-1" (Rejected failure)].
Proof. by vm_compute. Qed.

(** ** Approved tasks *)

(** An approval seen by the loop ends the wait at once. *)
Lemma poll_approved (E : Env) fuel taskId startTime lastresult w
    (t : task) oob dt res dt' :
  pollable w taskId t oob →
  checkForApproval E (trace w) oob = (Resolved "APPROVED", dt) →
  downstream_callTool E (EvCheckForApproval oob (Resolved "APPROVED") :: trace w)
    (toolName t) (toolArgs t) = (Resolved res, dt') →
  (clock w < startTime + 10000)%Z →
  poll E (S fuel) taskId startTime lastresult w
    = (Some (handleTaskStatusCheck E taskId w).1,
       (handleTaskStatusCheck E taskId w).2).
Proof.
  intros (Hw & Ho & Hne) Hc Hd Hclk. rewrite poll_unfold.
  destruct (Z.ltb_spec (clock w) (startTime + 10000)); [|lia].
  erewrite handleTaskStatusCheck_approved by done. simpl.
  by rewrite status_of_completed.
Qed.

(** A query that the channel approves, when no other handler runs
    between its [await]s.  It makes exactly one downstream call, with
    the tool name and the arguments stored in the task and directly
    after the channel's answer, and removes the task.  If the
    downstream call resolves, the payload is its result with
    [structuredContent = {status: "COMPLETED", tool}], and the bounded
    wait of [check_task_status] returns it at once.  If the downstream
    call is rejected, the payload is the one of the [catch] block.
    In whatever world the identifier is not parked, a query returns
    the not-found payload and touches nothing; and the identifier stays
    absent through every later request, unless a high-risk call draws
    that very identifier again. *)
Lemma approved_query_alone (E : Env) taskId w (t : task) oob dt r dt' :
  pollable w taskId t oob →
  checkForApproval E (trace w) oob = (Resolved "APPROVED", dt) →
  downstream_callTool E (EvCheckForApproval oob (Resolved "APPROVED") :: trace w)
    (toolName t) (toolArgs t) = (r, dt') →
  ∃ payload w',
    handleTaskStatusCheck E taskId w = (payload, w')
    ∧ trace w' = EvCallTool (toolName t) (toolArgs t) r
                   :: EvCheckForApproval oob (Resolved "APPROVED") :: trace w
    ∧ pendingTasks w' = delete taskId (pendingTasks w)
    ∧ pendingTasks w' !! taskId = None
    ∧ (∀ res, r = Resolved res →
         payload = completed_payload res (toolName t)
         ∧ opt_chain (opt_chain payload "structuredContent") "status" = JStr "COMPLETED"
         ∧ opt_chain (opt_chain payload "structuredContent") "tool" = JStr (toolName t)
         ∧ ∀ fuel startTime lastresult,
             (clock w < startTime + 10000)%Z →
             poll E (S fuel) taskId startTime lastresult w = (Some payload, w'))
    ∧ (∀ e, r = Rejected e → payload = denied_payload taskId e)
    ∧ (∀ E' w'', pendingTasks w'' !! taskId = None →
         handleTaskStatusCheck E' taskId w'' = (not_found_payload taskId, w''))
    ∧ (∀ cfgs srv E' fuel name arguments meta w'',
         pendingTasks w'' !! taskId = None →
         taskId ≠ make_taskId (clock w'') (Math_random E' (trace w'')) →
         pendingTasks (CallToolRequest_handler cfgs srv E' fuel name arguments meta
                         w'').2 !! taskId = None)
    ∧ (∀ E' fuel startTime lastresult w0,
         ∃ seg, trace (poll E' fuel taskId startTime lastresult w0).2 = seg ++ trace w0
                ∧ gated seg = true).
Proof.
  intros Hpoll Hc Hd. pose proof Hpoll as (Hw & Ho & Hne).
  pose proof (handleTaskStatusCheck_approved E taskId w t oob dt r dt'
                Hw Ho Hne Hc Hd) as Hq.
  eexists _, _. split; [exact Hq|].
  split; [reflexivity|]. split; [reflexivity|].
  split; [apply lookup_delete_eq|].
  split; [|split; [|split; [|split]]].
  - intros res ->. split; [done|].
    split; [apply status_of_completed|]. split; [apply tool_of_completed|].
    intros fuel startTime lastresult Hclk.
    rewrite (poll_approved E fuel taskId startTime lastresult w t oob dt res dt')
      by done.
    by rewrite Hq.
  - by intros e ->.
  - intros E' w'' Hw''. by apply handleTaskStatusCheck_absent.
  - intros. by apply handler_parks_only_the_drawn_id.
  - intros E' fuel startTime lastresult w0.
    apply (poll_effects E' fuel taskId startTime lastresult w0).
Qed.

(** C1 fails in the code, at two inputs.

    First, two [check_task_status] requests for one parked task whose
    handlers overlap.  [handleTaskStatusCheck] reads the task before it
    awaits the channel, and deletes it only after it has awaited the
    downstream call.  The second handler therefore still finds the
    task, the channel answers ["APPROVED"] to both, and both call the
    tool: one approval, two runs with the stored arguments, two callers
    told COMPLETED.  The session below starts from a new instance and
    parks the task with an [add_todos] request.

    Second, one request whose downstream call is rejected after the
    channel has approved.  The [catch] block written for the channel
    catches the downstream failure as well: the task is removed, the
    payload of the query says that the approval failed or was denied,
    carries no [structuredContent], and the caller of
    [check_task_status], whose wait goes on, ends up with the
    not-found payload. *)
Theorem approved_task_is_not_run_exactly_once :
  let taskId := "task-1700000000000-k3x9" in
  let todo := JObj [("title", JStr "x")] in
  let added := [("content", JArr [text_content "Todo added"])] in
  let status_check :=
    CallToolRequest "check_task_status" (JObj [("taskId", JStr taskId)])
      JUndefined in
  (* two status checks that overlap *)
  (let E := scripted_env [20; 3; 33; 9]%N (Resolved "APPROVED") (Resolved added) in
   let out :=
     serve (static_MCPServerMap "secret") "todo-mcp-server" E 4
       [Arrive (CallToolRequest "add_todos" todo JUndefined); Resume 0;
        Arrive status_check; Arrive status_check;
        Resume 1; Resume 2; Resume 1; Resume 2; Resume 1; Resume 2]
       (create (static_MCPServerMap "secret") "todo-mcp-server" E
          1700000000000).2 in
   out.1 = [Done (Some (Resolved (pending_poll_payload "add_todos" taskId)));
            Done (Some (Resolved (completed_payload added "add_todos")));
            Done (Some (Resolved (completed_payload added "add_todos")))]
   ∧ trace out.2
     = [EvCallTool "add_todos" todo (Resolved added);
        EvCallTool "add_todos" todo (Resolved added);
        EvCheckForApproval "oob-1" (Resolved "APPROVED");
        EvCheckForApproval "oob-1" (Resolved "APPROVED");
        EvSendApprovalRequest "bob@tables.fake" (Resolved "oob-1");
        EvRandom [20; 3; 33; 9]%N;
        EvConnect (ConfigObject (todo_mcp_server "secret")) (Resolved ())]
   ∧ pendingTasks out.2 = ∅)
  ∧
  (* one status check whose downstream call is rejected *)
  (let E := scripted_env [20; 3; 33; 9]%N (Resolved "APPROVED")
              (Rejected (Error "Request timed out")) in
   let w :=
     (handle_request (static_MCPServerMap "secret") "todo-mcp-server" E 4
        (CallToolRequest "add_todos" todo JUndefined)
        (create (static_MCPServerMap "secret") "todo-mcp-server" E
           1700000000000).2).2 in
   let q := handleTaskStatusCheck E taskId w in
   let out :=
     handle_request (static_MCPServerMap "secret") "todo-mcp-server" E 4
       status_check w in
   pendingTasks w = {[ taskId := Task "add_todos" todo PENDING (Some "oob-1") ]}
   ∧ q.1 = JObj [("isError", JBool true);
                 ("content", JArr [text_content
                    "Task task-1700000000000-k3x9 approval failed or was denied. Status: DENIED/FAILED."])]
   ∧ trace q.2
     = [EvCallTool "add_todos" todo (Rejected (Error "Request timed out"));
        EvCheckForApproval "oob-1" (Resolved "APPROVED");
        EvSendApprovalRequest "bob@tables.fake" (Resolved "oob-1");
        EvRandom [20; 3; 33; 9]%N;
        EvConnect (ConfigObject (todo_mcp_server "secret")) (Resolved ())]
   ∧ pendingTasks q.2 = ∅
   ∧ out.1 = Some (Resolved (not_found_payload taskId))).
Proof.
  split; [by vm_compute|]. vm_compute. repeat split.
Qed.

(** ** High-risk tools *)

(** When the approval service turns the request down, nothing is parked
    and the caller gets the set-up error. *)
Lemma callTool_high_risk_setup_fails
    (cfgs : gmap string MCPServerConfig) (srv : string) (E : Env)
    (config : MCPServerConfig) (name : string) (toolargs progressToken : json)
    (w : world) (e : js_error) (dt : N) :
  cfgs !! srv = Some config →
  name ∉ BlockedTools config →
  name ∈ HighRiskTools config →
  sendApprovalRequest E (EvRandom (Math_random E (trace w)) :: trace w)
    "bob@tables.fake" = (Rejected e, dt) →
  (callTool cfgs srv E name toolargs progressToken w).1
    = Resolved (setup_failed_payload e)
  ∧ pendingTasks (callTool cfgs srv E name toolargs progressToken w).2
    = pendingTasks w.
Proof.
  intros Hcfg Hb Hh Hs. unfold callTool, includes.
  rewrite (MCPServerMap_get_own _ _ _ Hcfg).
  rewrite bool_decide_eq_false_2, bool_decide_eq_true_2 by done.
  unfold_M. simpl. by rewrite Hs.
Qed.

(** C2 as the code has it: the claim without the promise that the
    identifier is new.

    A tool named in [HighRiskTools] and not in [BlockedTools], when the
    approval service accepts the request: the caller receives the
    pending payload, whose [structuredContent.status] is
    ["PENDING_APPROVAL_POLL"] and whose [taskId] is the identifier built
    from the clock and the random draw; under that identifier
    [pendingTasks] holds a PENDING task with the given tool name and
    arguments and the out-of-band code just received; every other entry
    is untouched; provided the identifier was not already parked, the
    map has grown by exactly one entry.  The invocation logs the random
    draw, the approval request and, for a truthy progress token, one
    notification: it makes no downstream call.  The request handler
    passes the payload on as it is. *)
Theorem high_risk_tool_is_parked
    (cfgs : gmap string MCPServerConfig) (srv : string) (E : Env)
    (config : MCPServerConfig) (name : string) (toolargs progressToken : json)
    (w : world) (oob : string) (dt : N) :
  cfgs !! srv = Some config →
  name ∉ BlockedTools config →
  name ∈ HighRiskTools config →
  sendApprovalRequest E (EvRandom (Math_random E (trace w)) :: trace w)
    "bob@tables.fake" = (Resolved oob, dt) →
  let taskId := make_taskId (clock w) (Math_random E (trace w)) in
  let payload := pending_poll_payload name taskId in
  let parked := Task name toolargs PENDING (Some oob) in
  ∃ w',
    callTool cfgs srv E name toolargs progressToken w = (Resolved payload, w')
    ∧ opt_chain (opt_chain payload "structuredContent") "status"
      = JStr "PENDING_APPROVAL_POLL"
    ∧ opt_chain (opt_chain payload "structuredContent") "taskId" = JStr taskId
    ∧ pendingTasks w' = <[taskId := parked]> (pendingTasks w)
    ∧ pendingTasks w' !! taskId = Some parked
    ∧ (∀ k, k ≠ taskId → pendingTasks w' !! k = pendingTasks w !! k)
    ∧ (pendingTasks w !! taskId = None →
       size (pendingTasks w') = S (size (pendingTasks w)))
    ∧ trace w' =
        (if truthy progressToken
         then [EvNotification "notifications/progress" (progress_params progressToken)]
         else [])
        ++ EvSendApprovalRequest "bob@tables.fake" (Resolved oob)
        :: EvRandom (Math_random E (trace w)) :: trace w
    ∧ (∀ n a r, EvCallTool n a r ∈ trace w' → EvCallTool n a r ∈ trace w)
    ∧ (∀ (fuel : nat) (meta : json),
         opt_chain meta "progressToken" = progressToken →
         name ≠ "check_task_status" → name ≠ "list_high_risk_tools" →
         CallToolRequest_handler cfgs srv E fuel name toolargs meta w
           = (Some (Resolved payload), w')).
Proof.
  intros Hcfg Hb Hh Hs taskId payload parked.
  assert (∃ w', callTool cfgs srv E name toolargs progressToken w
                = (Resolved payload, w')
            ∧ pendingTasks w' = <[taskId := parked]> (pendingTasks w)
            ∧ trace w' =
                (if truthy progressToken
                 then [EvNotification "notifications/progress"
                         (progress_params progressToken)]
                 else [])
                ++ EvSendApprovalRequest "bob@tables.fake" (Resolved oob)
                :: EvRandom (Math_random E (trace w)) :: trace w)
    as (w' & Hcall & Hpt & Htr).
  { unfold callTool, includes. rewrite (MCPServerMap_get_own _ _ _ Hcfg).
    rewrite bool_decide_eq_false_2, bool_decide_eq_true_2 by done.
    unfold_M. simpl. rewrite Hs.
    destruct (truthy progressToken); by eexists. }
  exists w'. split; [done|]. split; [done|]. split; [done|]. split; [done|].
  split; [rewrite Hpt; apply lookup_insert_eq|].
  split; [intros k Hk; rewrite Hpt; by apply lookup_insert_ne|].
  split; [intros Hfresh; rewrite Hpt; by apply map_size_insert_None|].
  split; [done|]. split.
  - intros n a r. rewrite Htr.
    destruct (truthy progressToken); simpl; rewrite !elem_of_cons;
      intros Hin; repeat (destruct Hin as [Hin|Hin]; [discriminate|]); done.
  - intros fuel meta Hmeta H1 H2. unfold CallToolRequest_handler.
    rewrite !bool_decide_eq_false_2 by done. unfold_M.
    by rewrite Hmeta, Hcall.
Qed.

Lemma high_risk_tool_is_parked_witness :
  let E := scripted_env [20; 3; 33; 9; 1]%N (Resolved "PENDING") (Resolved []) in
  let cfgs := static_MCPServerMap "secret" in
  let toolargs := JObj [("title", JStr "x")] in
  let w := World ∅ 1700000000000 [] in
  let taskId := "task-1700000000000-k3x9" in
  let payload := pending_poll_payload "add_todos" taskId in
  let parked := Task "add_todos" toolargs PENDING (Some "oob-1") in
  ∃ w',
    callTool cfgs "todo-mcp-server" E "add_todos" toolargs (JStr "tok-1") w
      = (Resolved payload, w')
    ∧ opt_chain (opt_chain payload "structuredContent") "status"
      = JStr "PENDING_APPROVAL_POLL"
    ∧ opt_chain (opt_chain payload "structuredContent") "taskId" = JStr taskId
    ∧ pendingTasks w' = <[taskId := parked]> (pendingTasks w)
    ∧ pendingTasks w' !! taskId = Some parked
    ∧ (∀ k, k ≠ taskId → pendingTasks w' !! k = pendingTasks w !! k)
    ∧ (pendingTasks w !! taskId = None →
       size (pendingTasks w') = S (size (pendingTasks w)))
    ∧ trace w' =
        [EvNotification "notifications/progress" (progress_params (JStr "tok-1"))]
        ++ EvSendApprovalRequest "bob@tables.fake" (Resolved "oob-1")
        :: EvRandom [20; 3; 33; 9; 1]%N :: trace w
    ∧ (∀ n a r, EvCallTool n a r ∈ trace w' → EvCallTool n a r ∈ trace w)
    ∧ (∀ (fuel : nat) (meta : json),
         opt_chain meta "progressToken" = JStr "tok-1" →
         "add_todos" ≠ "check_task_status" → "add_todos" ≠ "list_high_risk_tools" →
         CallToolRequest_handler cfgs "todo-mcp-server" E fuel "add_todos" toolargs meta w
           = (Some (Resolved payload), w')).
Proof.
  intros E cfgs toolargs w taskId payload parked.
  apply (high_risk_tool_is_parked cfgs "todo-mcp-server" E (todo_mcp_server "secret")
           "add_todos" toolargs (JStr "tok-1") w "oob-1" 0%N).
  - vm_compute; reflexivity.
  - compute_done.
  - compute_done.
  - reflexivity.
Defined.

(** C2 as stated fails when the identifier drawn is already parked: the
    call happens in the millisecond of an earlier one and the random
    draw starts with the same four digits.  The returned [taskId] is not
    new, no entry is added to [pendingTasks], and the earlier task, with
    its arguments and its out-of-band code, is overwritten. *)
Lemma high_risk_call_can_overwrite_a_parked_task :
  let E := scripted_env [20; 3; 33; 9; 1]%N (Resolved "PENDING") (Resolved []) in
  let cfgs := static_MCPServerMap "secret" in
  let taskId := "task-1700000000000-k3x9" in
  let earlier := Task "add_todos" (JObj [("title", JStr "x")]) PENDING (Some "oob-0") in
  let w := World {[ taskId := earlier ]} 1700000000000 [] in
  let out := callTool cfgs "todo-mcp-server" E "add_todos"
               (JObj [("title", JStr "y")]) JUndefined w in
  out.1 = Resolved (pending_poll_payload "add_todos" taskId)
  ∧ opt_chain (opt_chain (pending_poll_payload "add_todos" taskId)
                 "structuredContent") "taskId" = JStr taskId
  ∧ pendingTasks w !! taskId = Some earlier
  ∧ size (pendingTasks w) = 1%nat
  ∧ size (pendingTasks out.2) = 1%nat
  ∧ pendingTasks out.2 !! taskId
    = Some (Task "add_todos" (JObj [("title", JStr "y")]) PENDING (Some "oob-1")).
Proof. by vm_compute. Qed.

(** ** Unknown server identifier *)




(** ** Task identifiers *)

Definition is_digit (c : ascii) : bool :=
  let n := N_of_ascii c in (48 <=? n)%N && (n <=? 57)%N.

Definition is_alnum (c : ascii) : bool :=
  let n := N_of_ascii c in
  is_digit c || ((97 <=? n)%N && (n <=? 122)%N) || ((65 <=? n)%N && (n <=? 90)%N).

Definition is_dash (c : ascii) : bool := (N_of_ascii c =? 45)%N.

Fixpoint string_forall (P : ascii → bool) (s : string) : bool :=
  match s with
  | EmptyString => true
  | String c s' => P c && string_forall P s'
  end.

Fixpoint strip_prefix (p s : string) : option string :=
  match p, s with
  | EmptyString, _ => Some s
  | String a p', String b s' => if bool_decide (a = b) then strip_prefix p' s' else None
  | String _ _, EmptyString => None
  end.

(** The longest prefix of decimal digits, and what follows it. *)
Fixpoint span_digits (s : string) : string * string :=
  match s with
  | String c s' =>
      if is_digit c then let '(ds, rest) := span_digits s' in (String c ds, rest)
      else (EmptyString, s)
  | EmptyString => (EmptyString, EmptyString)
  end.

(** [task-<digits>-<alphanumerics>], with [suffix_ok] deciding on the
    number of alphanumerics. *)
Definition task_format (suffix_ok : nat → bool) (taskId : string) : bool :=
  match strip_prefix "task-" taskId with
  | None => false
  | Some rest =>
      let '(ds, rest') := span_digits rest in
      negb (bool_decide (ds = "")) &&
      match rest' with
      | String c suffix =>
          is_dash c && string_forall is_alnum suffix
          && suffix_ok (String.length suffix)
      | EmptyString => false
      end
  end.

(** The format [task-<digits>-<4 alphanumerics>]. *)
Definition matches_task_format : string → bool := task_format (λ n, n =? 4)%nat.

(** The part of an identifier that comes from the random draw. *)
Definition random_suffix (rnd : list N) : string :=
  JS_substring 2 6 (Number_toString36 rnd).

Lemma base36_char_alnum (d : N) : is_alnum (base36_char d) = true.
Proof.
  unfold base36_char, is_alnum, is_digit.
  assert (d mod 36 < 36)%N as Hlt by (by apply N.mod_lt).
  generalize dependent (d mod 36)%N. intros k Hlt.
  destruct (N.ltb_spec k 10).
  - rewrite N_ascii_embedding by lia.
    apply orb_true_intro. left. apply orb_true_intro. left.
    apply andb_true_intro. split; apply N.leb_le; lia.
  - rewrite N_ascii_embedding by lia.
    apply orb_true_intro. left. apply orb_true_intro. right.
    apply andb_true_intro. split; apply N.leb_le; lia.
Qed.

Lemma substring_base36 (n : nat) (ds : list N) :
  string_forall is_alnum (String.substring 0 n (base36_digits ds)) = true
  ∧ String.length (String.substring 0 n (base36_digits ds)) = Nat.min n (length ds).
Proof.
  revert ds. induction n as [|n IH]; intros [|d ds]; simpl; try done.
  destruct (IH ds) as [H1 H2]. by rewrite base36_char_alnum, H1, H2.
Qed.

Lemma random_suffix_spec (rnd : list N) :
  string_forall is_alnum (random_suffix rnd) = true
  ∧ String.length (random_suffix rnd) = Nat.min 4 (length rnd).
Proof.
  unfold random_suffix, JS_substring, Number_toString36.
  destruct rnd as [|d ds]; [done|].
  apply (substring_base36 4 (d :: ds)).
Qed.

Lemma alnum_not_dash (c : ascii) : is_alnum c = true → is_dash c = false.
Proof.
  unfold is_alnum, is_digit, is_dash. intros H.
  apply N.eqb_neq. intros Hc. rewrite Hc in H. discriminate.
Qed.

Lemma digit_not_dash (c : ascii) : is_digit c = true → is_dash c = false.
Proof.
  unfold is_digit, is_dash. intros H.
  apply N.eqb_neq. intros Hc. rewrite Hc in H. discriminate.
Qed.

(** Splitting at the last dash is unambiguous. *)
Lemma append_dash_inj (x y s1 s2 : string) (dash : ascii) :
  is_dash dash = true →
  string_forall is_alnum s1 = true →
  string_forall is_alnum s2 = true →
  x +:+ String dash s1 = y +:+ String dash s2 →
  x = y ∧ s1 = s2.
Proof.
  intros Hdash H1 H2.
  assert (∀ z s s', string_forall is_alnum s = true → s ≠ z +:+ String dash s')
    as Hno.
  { intros z s s' Hs ->. induction z as [|c z IH]; simpl in Hs.
    - apply andb_prop in Hs as [Hs _]. apply alnum_not_dash in Hs. congruence.
    - apply andb_prop in Hs as [_ Hs]. auto. }
  revert y. induction x as [|a x IH]; intros [|b y]; simpl.
  - by intros [= ->].
  - intros [= <- ->]. by destruct (Hno y _ s2 H1).
  - intros [= -> <-]. by destruct (Hno x _ s1 H2).
  - intros [= -> Heq]. destruct (IH _ Heq) as [-> ->]. done.
Qed.

Lemma pretty_N_char_digit (x : N) : is_digit (pretty_N_char x) = true.
Proof. unfold pretty_N_char. by repeat case_match. Qed.

Lemma pretty_N_go_digits (x : N) (s : string) :
  string_forall is_digit s = true →
  string_forall is_digit (pretty_N_go x s) = true
  ∧ ((0 < x)%N ∨ s ≠ "" → pretty_N_go x s ≠ "").
Proof.
  revert s. induction (N.lt_wf_0 x) as [x _ IH]; intros s Hs.
  assert (x = 0 ∨ 0 < x)%N as [->|Hx] by lia.
  - rewrite pretty_N_go_0. split; [done|]. intros [?|?]; [lia|done].
  - rewrite pretty_N_go_step by done.
    destruct (IH (x `div` 10)%N (N.div_lt x 10 Hx eq_refl)
                 (String (pretty_N_char (x `mod` 10)) s)) as [H1 H2].
    { simpl. by rewrite pretty_N_char_digit, Hs. }
    split; [done|]. intros _. apply H2. by right.
Qed.

Lemma pretty_nonneg_digits (now : Z) :
  (0 ≤ now)%Z →
  string_forall is_digit (pretty now) = true ∧ pretty now ≠ "".
Proof.
  intros Hnow. destruct now as [|p|p]; [done| |lia].
  unfold pretty, pretty_Z, pretty, pretty_positive, pretty, pretty_N.
  rewrite decide_False by done.
  destruct (pretty_N_go_digits (N.pos p) "" eq_refl) as [H1 H2].
  split; [done|]. apply H2. left. lia.
Qed.

Lemma span_digits_dash (ds rest : string) (dash : ascii) :
  string_forall is_digit ds = true →
  is_dash dash = true →
  span_digits (ds +:+ String dash rest) = (ds, String dash rest).
Proof.
  intros Hds Hdash. induction ds as [|c ds IH]; simpl in *.
  - destruct (is_digit dash) eqn:Hd; [|done].
    apply digit_not_dash in Hd. congruence.
  - apply andb_prop in Hds as [-> Hds]. by rewrite IH.
Qed.

Lemma make_taskId_format (suffix_ok : nat → bool) (now : Z) (rnd : list N) :
  (0 ≤ now)%Z →
  task_format suffix_ok (make_taskId now rnd)
  = suffix_ok (Nat.min 4 (length rnd)).
Proof.
  intros Hnow. unfold task_format, make_taskId. fold (random_suffix rnd).
  change (strip_prefix "task-" ("task-" +:+ ?s)) with (Some s).
  destruct (pretty_nonneg_digits now Hnow) as [Hd Hne].
  change ("-" +:+ ?s) with (String "-"%char s).
  rewrite span_digits_dash by done.
  rewrite bool_decide_eq_false_2 by done.
  destruct (random_suffix_spec rnd) as [-> ->]. done.
Qed.

(** C7 as the code has it.  An identifier is [task-], the decimal
    rendering of the clock, a dash, and the first four base-36 digits
    of the random draw, fewer if the draw prints fewer.  For a clock at
    or after the epoch it has the form [task-<digits>-<at most 4
    alphanumerics>], and the form [task-<digits>-<4 alphanumerics>]
    whenever the draw prints at least four digits.  Two identifiers are
    equal only if they were made at the same clock value from draws with
    the same leading digits; identifiers that differ in either are
    distinct. *)
Theorem taskId_shape_and_injectivity (now : Z) (rnd : list N) :
  (0 ≤ now)%Z →
  task_format (λ n, n <=? 4)%nat (make_taskId now rnd) = true
  ∧ ((4 ≤ length rnd)%nat → matches_task_format (make_taskId now rnd) = true)
  ∧ ∀ now' rnd',
      make_taskId now rnd = make_taskId now' rnd' ↔
      now = now' ∧ random_suffix rnd = random_suffix rnd'.
Proof.
  intros Hnow. split; [|split].
  - rewrite make_taskId_format by done. apply Nat.leb_le. lia.
  - intros Hlen. unfold matches_task_format.
    rewrite make_taskId_format by done. apply Nat.eqb_eq. lia.
  - intros now' rnd'. unfold make_taskId. fold (random_suffix rnd) (random_suffix rnd').
    split.
    + intros [= Heq].
      apply (append_dash_inj _ _ _ _ "-"%char) in Heq as [Hp Hs];
        [|done|apply random_suffix_spec..].
      split; [by apply (inj pretty)|done].
    + by intros [-> ->].
Qed.

Lemma taskId_shape_and_injectivity_witness :
  task_format (λ n, n <=? 4)%nat (make_taskId 1700000000000 [20; 3; 33; 9; 1]%N) = true
  ∧ ((4 ≤ length [20; 3; 33; 9; 1]%N)%nat →
     matches_task_format (make_taskId 1700000000000 [20; 3; 33; 9; 1]%N) = true)
  ∧ ∀ now' rnd',
      make_taskId 1700000000000 [20; 3; 33; 9; 1]%N = make_taskId now' rnd' ↔
      1700000000000%Z = now' ∧ random_suffix [20; 3; 33; 9; 1]%N = random_suffix rnd'.
Proof.
  apply (taskId_shape_and_injectivity 1700000000000 [20; 3; 33; 9; 1]%N). lia.
Defined.

(** Two draws that agree on their first four digits, then the draw 0.5,
    which prints as [0.i]. *)
Definition colliding_random (tr : list event) : list N :=
  match length tr with
  | 0%nat => [20; 3; 33; 9; 1; 30]%N
  | 2%nat => [20; 3; 33; 9; 7; 12]%N
  | _ => [18]%N
  end.

(** C7 as stated fails on both counts.  Three high-risk calls in one
    process, the first two within one millisecond: the second identifier
    equals the first, and the third, made from the draw 0.5, ends in a
    single alphanumeric. *)
Lemma taskIds_can_collide_and_fall_short :
  let E := {| Math_random := colliding_random;
              sendApprovalRequest := λ tr _,
                (Resolved "oob", match length tr with 3%nat => 250%N | _ => 0%N end);
              checkForApproval := λ _ _, (Resolved "PENDING", 0%N);
              downstream_callTool := λ _ _ _, (Resolved [], 0%N);
              downstream_listTools := λ _, (Resolved [], 0%N);
              downstream_connect := λ _ _, (Resolved (), 0%N);
              lateness := λ _ _, 0%N |} in
  let cfgs := static_MCPServerMap "secret" in
  let call args w := callTool cfgs "todo-mcp-server" E "add_todos" args JUndefined w in
  let taskId_of (answer : outcome json) :=
    match answer with
    | Resolved payload => opt_chain (opt_chain payload "structuredContent") "taskId"
    | Rejected _ => JUndefined
    end in
  let first := call (JObj [("title", JStr "x")]) (World ∅ 1700000000000 []) in
  let second := call (JObj [("title", JStr "y")]) first.2 in
  let third := call (JObj [("title", JStr "z")]) second.2 in
  taskId_of first.1 = JStr "task-1700000000000-k3x9"
  ∧ taskId_of second.1 = JStr "task-1700000000000-k3x9"
  ∧ taskId_of third.1 = JStr "task-1700000000250-i"
  ∧ matches_task_format "task-1700000000250-i" = false
  ∧ size (pendingTasks third.2) = 2%nat.
Proof. by vm_compute. Qed.

(** * Beyond the single request: catalogue, start-up, sessions *)

(** ** Counting events *)

Definition is_check (e : event) : bool :=
  match e with EvCheckForApproval _ _ => true | _ => false end.

Definition is_call (e : event) : bool :=
  match e with EvCallTool _ _ _ => true | _ => false end.



Fixpoint count (P : event → bool) (tr : list event) : nat :=
  match tr with
  | [] => 0
  | e :: tr' => (if P e then 1 else 0) + count P tr'
  end.

Lemma count_app (P : event → bool) (tr1 tr2 : list event) :
  count P (tr1 ++ tr2) = (count P tr1 + count P tr2)%nat.
Proof. induction tr1 as [|e tr1 IH]; simpl; [done|]. rewrite IH. lia. Qed.

Lemma count_replicate_other (P : event → bool) (n : nat) (e : event) :
  P e = false → count P (replicate n e) = 0%nat.
Proof. intros He. induction n as [|n IH]; simpl; [done|]. by rewrite He, IH. Qed.


(** ** The tool catalogue *)

(** X1: a list-tools request makes one [listTools] call downstream and
    answers with the downstream tools, in their order, followed by the
    two synthetic definitions, [check_task_status] then
    [list_high_risk_tools].  When the downstream listing fails the
    answer holds the two synthetic definitions alone.  No task is
    touched. *)
Theorem catalogue_ends_with_synthetic_tools
    (cfgs : gmap string MCPServerConfig) (srv : string) (E : Env)
    (config : MCPServerConfig) (w : world) (r : outcome (list json)) (dt : N) :
  cfgs !! srv = Some config →
  downstream_listTools E (trace w) = (r, dt) →
  ListToolsRequest_handler cfgs srv E w =
    (JObj [("tools",
            JArr (match r with Resolved tools => tools | Rejected _ => [] end
                  ++ [checkStatusToolDefinition; ListHighRiskToolDefinition]))],
     World (pendingTasks w) (clock w + Z.of_N dt) (EvListTools r :: trace w)).
Proof.
  intros Hcfg Hl. unfold ListToolsRequest_handler, getTools.
  rewrite (MCPServerMap_get_own _ _ _ Hcfg).
  unfold_M. rewrite Hl. by destruct r.
Qed.

Lemma catalogue_ends_with_synthetic_tools_witness :
  let E := scripted_env [] (Resolved "PENDING") (Resolved []) in
  let w := World ∅ 1700000000000 [] in
  ListToolsRequest_handler (static_MCPServerMap "secret") "todo-mcp-server" E w =
    (JObj [("tools",
            JArr ([] ++ [checkStatusToolDefinition; ListHighRiskToolDefinition]))],
     World (pendingTasks w) (clock w + Z.of_N 0) (EvListTools (Resolved []) :: trace w)).
Proof.
  intros E w.
  apply (catalogue_ends_with_synthetic_tools (static_MCPServerMap "secret")
           "todo-mcp-server" E (todo_mcp_server "secret") w (Resolved []) 0%N).
  - vm_compute; reflexivity.
  - reflexivity.
Defined.

(** X2: the two synthetic tool names are served by the proxy itself
    before the configuration is looked at.  Listing one of them in
    [BlockedTools] or [HighRiskTools] has no effect:
    [list_high_risk_tools] still answers with the configured high-risk
    names and leaves the world untouched, and the answer to
    [check_task_status] does not depend on the table or on the server
    name at all. *)
Theorem synthetic_tools_ignore_the_lists
    (cfgs : gmap string MCPServerConfig) (srv : string) (E : Env)
    (config : MCPServerConfig) (fuel : nat) (arguments meta : json) (w : world) :
  cfgs !! srv = Some config →
  CallToolRequest_handler cfgs srv E fuel "list_high_risk_tools" arguments meta w
    = (Some (Resolved (JObj [("content", JArr [text_content
         ("High risk tools are " +:+ JSON_stringify_strings (HighRiskTools config)
          +:+ ".")])])), w)
  ∧ ∀ cfgs' srv',
      CallToolRequest_handler cfgs srv E fuel "check_task_status" arguments meta w
      = CallToolRequest_handler cfgs' srv' E fuel "check_task_status" arguments meta w.
Proof.
  intros Hcfg. split; [|done].
  unfold CallToolRequest_handler, list_high_risk_tools. simpl.
  by rewrite (MCPServerMap_get_own _ _ _ Hcfg).
Qed.

Lemma synthetic_tools_ignore_the_lists_witness :
  let E := scripted_env [] (Resolved "PENDING") (Resolved []) in
  let config := {| command := "node"; args := []; env := [];
                   HighRiskTools := ["wipe"; "list_high_risk_tools"];
                   BlockedTools := ["list_high_risk_tools"; "check_task_status"] |} in
  let cfgs : gmap string MCPServerConfig := {[ "srv" := config ]} in
  let w := World ∅ 7 [] in
  CallToolRequest_handler cfgs "srv" E 4 "list_high_risk_tools" JUndefined JUndefined w
    = (Some (Resolved (JObj [("content", JArr [text_content
         ("High risk tools are " +:+ JSON_stringify_strings (HighRiskTools config)
          +:+ ".")])])), w)
  ∧ ∀ cfgs' srv',
      CallToolRequest_handler cfgs "srv" E 4 "check_task_status" JUndefined JUndefined w
      = CallToolRequest_handler cfgs' srv' E 4 "check_task_status" JUndefined JUndefined w.
Proof.
  intros E config cfgs w.
  apply (synthetic_tools_ignore_the_lists cfgs "srv" E config).
  vm_compute; reflexivity.
Defined.

(** ** Approval requests the channel turns down *)

(** X3: when [sendApprovalRequest] is rejected for a high-risk tool, the
    caller gets an [isError] payload quoting the error's message; no
    task is parked, no notification is sent even if a progress token
    came with the request, and the downstream server is not contacted:
    the invocation only logs the random draw and the failed request. *)
Theorem approval_setup_failure_parks_nothing
    (cfgs : gmap string MCPServerConfig) (srv : string) (E : Env)
    (config : MCPServerConfig) (name : string) (toolargs progressToken : json)
    (w : world) (e : js_error) (dt : N) :
  cfgs !! srv = Some config →
  name ∉ BlockedTools config →
  name ∈ HighRiskTools config →
  sendApprovalRequest E (EvRandom (Math_random E (trace w)) :: trace w)
    "bob@tables.fake" = (Rejected e, dt) →
  ∃ w',
    callTool cfgs srv E name toolargs progressToken w
      = (Resolved (setup_failed_payload e), w')
    ∧ get_prop (setup_failed_payload e) "isError" = JBool true
    ∧ get_prop (setup_failed_payload e) "content"
      = JArr [text_content ("Authorization setup failed: " +:+ render (err_message e))]
    ∧ pendingTasks w' = pendingTasks w
    ∧ trace w' = EvSendApprovalRequest "bob@tables.fake" (Rejected e)
                 :: EvRandom (Math_random E (trace w)) :: trace w.
Proof.
  intros Hcfg Hb Hh Hs. unfold callTool, includes.
  rewrite (MCPServerMap_get_own _ _ _ Hcfg).
  rewrite bool_decide_eq_false_2, bool_decide_eq_true_2 by done.
  unfold_M. simpl. rewrite Hs. by eexists.
Qed.

Lemma approval_setup_failure_parks_nothing_witness :
  let e := Error "user not enrolled" in
  let E := {| Math_random := λ _, [20; 3; 33; 9]%N;
              sendApprovalRequest := λ _ _, (Rejected e, 80%N);
              checkForApproval := λ _ _, (Resolved "PENDING", 0%N);
              downstream_callTool := λ _ _ _, (Resolved [], 0%N);
              downstream_listTools := λ _, (Resolved [], 0%N);
              downstream_connect := λ _ _, (Resolved (), 0%N);
              lateness := λ _ _, 0%N |} in
  let w := World ∅ 1700000000000 [] in
  ∃ w',
    callTool (static_MCPServerMap "secret") "todo-mcp-server" E "add_todos"
      (JObj [("title", JStr "x")]) (JStr "tok-1") w
      = (Resolved (setup_failed_payload e), w')
    ∧ get_prop (setup_failed_payload e) "isError" = JBool true
    ∧ get_prop (setup_failed_payload e) "content"
      = JArr [text_content ("Authorization setup failed: " +:+ render (err_message e))]
    ∧ pendingTasks w' = pendingTasks w
    ∧ trace w' = EvSendApprovalRequest "bob@tables.fake" (Rejected e)
                 :: EvRandom (Math_random E (trace w)) :: trace w.
Proof.
  intros e E w.
  apply (approval_setup_failure_parks_nothing (static_MCPServerMap "secret")
           "todo-mcp-server" E (todo_mcp_server "secret") "add_todos"
           (JObj [("title", JStr "x")]) (JStr "tok-1") w e 80%N).
  - vm_compute; reflexivity.
  - compute_done.
  - compute_done.
  - reflexivity.
Defined.

(** ** Forwarded tools, the resolved case *)

(** X4: a tool that is neither blocked nor high-risk, and not one of the
    synthetic names, is forwarded: exactly one downstream call with the
    request's name and arguments; when it resolves, the handler's answer
    is the downstream result itself.  No task is parked and a progress
    token, if any, is ignored: no notification is sent. *)
Theorem normal_tool_is_forwarded_verbatim
    (cfgs : gmap string MCPServerConfig) (srv : string) (E : Env)
    (config : MCPServerConfig) (fuel : nat) (name : string)
    (arguments meta : json) (w : world) (res : obj) (dt : N) :
  cfgs !! srv = Some config →
  name ∉ BlockedTools config →
  name ∉ HighRiskTools config →
  name ≠ "check_task_status" → name ≠ "list_high_risk_tools" →
  downstream_callTool E (trace w) name arguments = (Resolved res, dt) →
  CallToolRequest_handler cfgs srv E fuel name arguments meta w =
    (Some (Resolved (JObj res)),
     World (pendingTasks w) (clock w + Z.of_N dt)
           (EvCallTool name arguments (Resolved res) :: trace w)).
Proof.
  intros Hcfg Hb Hh H1 H2 Hd. unfold CallToolRequest_handler.
  rewrite !bool_decide_eq_false_2 by done. unfold_M.
  by erewrite callTool_normal by done.
Qed.

Lemma normal_tool_is_forwarded_verbatim_witness :
  let res := [("content", JArr [text_content "2 todos"]); ("isError", JBool false)] in
  let E := scripted_env [] (Resolved "PENDING") (Resolved res) in
  let w := World ∅ 1700000000000 [] in
  CallToolRequest_handler (static_MCPServerMap "secret") "todo-mcp-server" E 4
    "get_todos" (JObj []) (JObj [("progressToken", JNum 5)]) w =
    (Some (Resolved (JObj res)),
     World (pendingTasks w) (clock w + Z.of_N 0)
           (EvCallTool "get_todos" (JObj []) (Resolved res) :: trace w)).
Proof.
  intros res E w.
  apply (normal_tool_is_forwarded_verbatim (static_MCPServerMap "secret")
           "todo-mcp-server" E (todo_mcp_server "secret"));
    [vm_compute; reflexivity | compute_done | compute_done
    | discriminate | discriminate | reflexivity].
Defined.

(** ** Start-up *)

Lemma select_server_name_given (argv : list string) (name : string) :
  argv !! 2%nat = Some name → select_server_name argv = name.
Proof.
  intros Harg. unfold select_server_name. rewrite Harg. simpl.
  apply lookup_lt_Some in Harg.
  by destruct (Nat.ltb_spec 2 (length argv)); [|lia].
Qed.

Lemma select_server_name_default (argv : list string) :
  argv !! 2%nat = None → select_server_name argv = "MCPServer".
Proof.
  intros Harg. unfold select_server_name. rewrite Harg.
  by destruct (2 <? length argv)%nat.
Qed.

(** What the read of the source's table yields for the selected name. *)
Lemma static_table_read (ACCESS_TOKEN : string) (argv : list string)
    (server : table_value) :
  MCPServerMap_get (static_MCPServerMap ACCESS_TOKEN) (select_server_name argv)
    = Some server ↔
  (argv !! 2%nat = Some "todo-mcp-server"
   ∧ server = ConfigObject (todo_mcp_server ACCESS_TOKEN))
  ∨ (∃ name, argv !! 2%nat = Some name ∧ name ∈ Object_prototype_names
             ∧ server = Inherited name).
Proof.
  assert (∀ name, MCPServerMap_get (static_MCPServerMap ACCESS_TOKEN) name
                  = if decide (name = "todo-mcp-server")
                    then Some (ConfigObject (todo_mcp_server ACCESS_TOKEN))
                    else if bool_decide (name ∈ Object_prototype_names)
                         then Some (Inherited name) else None) as Hget.
  { intros name. unfold MCPServerMap_get, static_MCPServerMap.
    destruct (decide _) as [->|Hne].
    - by rewrite lookup_singleton_eq.
    - by rewrite lookup_singleton_ne. }
  destruct (argv !! 2%nat) as [name|] eqn:Harg.
  - rewrite (select_server_name_given _ _ Harg), Hget.
    destruct (decide (name = "todo-mcp-server")) as [->|Hne].
    + split.
      * intros [= <-]. by left.
      * intros [[_ ->]|(name & [= <-] & Hin & _)]; [done|].
        assert ("todo-mcp-server" ∉ Object_prototype_names) by compute_done.
        done.
    + destruct (decide (name ∈ Object_prototype_names)) as [Hin|Hin].
      * rewrite bool_decide_eq_true_2 by done. split.
        -- intros [= <-]. right. by exists name.
        -- intros [[[= ?] _]|(name' & [= <-] & _ & ->)]; done.
      * rewrite bool_decide_eq_false_2 by done. split; [done|].
        intros [[[= ?] _]|(name' & [= <-] & ? & _)]; done.
  - rewrite (select_server_name_default _ Harg), Hget. simpl.
    split; [done|]. intros [[? _]|(name & ? & _)]; done.
Qed.

(** X5: when the process serves.  With the table of the source, the
    process reaches the serving state exactly when the read of the table
    for its third command-line word yields a value -- the word is
    [todo-mcp-server], or it is one of the names the table object
    inherits from [Object.prototype] -- and the downstream connection
    made with that value and the server transport both succeed; the
    instance then holds no task and has connected once.  In every other
    case the process exits with code 1; in particular it does so,
    without any connection attempt, whenever no server name is given,
    because the default name [MCPServer] reads as [undefined]. *)
Theorem main_serving_condition
    (ACCESS_TOKEN : string) (E : Env) (argv : list string) (now : Z)
    (run : world → outcome unit) :
  (∀ instance,
     main (static_MCPServerMap ACCESS_TOKEN) E argv now run = Serving instance ↔
     ∃ server dt,
       ((argv !! 2%nat = Some "todo-mcp-server"
         ∧ server = ConfigObject (todo_mcp_server ACCESS_TOKEN))
        ∨ (∃ name, argv !! 2%nat = Some name ∧ name ∈ Object_prototype_names
                   ∧ server = Inherited name))
       ∧ downstream_connect E [] server = (Resolved (), dt)
       ∧ instance = World ∅ (now + Z.of_N dt) [EvConnect server (Resolved ())]
       ∧ run instance = Resolved ())
  ∧ (main (static_MCPServerMap ACCESS_TOKEN) E argv now run = Exited 1
     ∨ ∃ instance, main (static_MCPServerMap ACCESS_TOKEN) E argv now run
                   = Serving instance)
  ∧ ((length argv ≤ 2)%nat →
     main (static_MCPServerMap ACCESS_TOKEN) E argv now run = Exited 1
     ∧ (create (static_MCPServerMap ACCESS_TOKEN) (select_server_name argv) E now).2
       = new_HITLProxy now).
Proof.
  pose proof (static_table_read ACCESS_TOKEN argv) as Hread.
  unfold main, create, initializeDownstreamConnection.
  destruct (MCPServerMap_get (static_MCPServerMap ACCESS_TOKEN)
              (select_server_name argv)) as [server|] eqn:Hget.
  - unfold_M. simpl.
    destruct (downstream_connect E [] server) as [[[]|e] dt] eqn:Hc; simpl.
    + destruct (run _) as [[]|e] eqn:Hrun.
      * split; [|split].
        -- intros instance. split.
           ++ intros [= <-]. exists server, dt.
              split; [by apply Hread|]. done.
           ++ intros (server' & dt' & Hcls & Hc' & -> & _).
              apply Hread in Hcls as [= <-]. rewrite Hc in Hc'.
              by injection Hc' as <-.
        -- right. by eexists.
        -- intros Hlen. exfalso.
           destruct (proj1 (Hread server) eq_refl)
             as [[Harg _]|(name & Harg & _)];
             apply lookup_lt_Some in Harg; lia.
      * split; [|split].
        -- intros instance. split; [done|].
           intros (server' & dt' & Hcls & Hc' & -> & Hr).
           apply Hread in Hcls as [= <-]. rewrite Hc in Hc'.
           injection Hc' as <-. congruence.
        -- by left.
        -- intros Hlen. exfalso.
           destruct (proj1 (Hread server) eq_refl)
             as [[Harg _]|(name & Harg & _)];
             apply lookup_lt_Some in Harg; lia.
    + split; [|split].
      * intros instance. split; [done|].
        intros (server' & dt' & Hcls & Hc' & _).
        apply Hread in Hcls as [= <-]. congruence.
      * by left.
      * intros Hlen. exfalso.
        destruct (proj1 (Hread server) eq_refl)
          as [[Harg _]|(name & Harg & _)];
          apply lookup_lt_Some in Harg; lia.
  - simpl. split; [|split].
    + intros instance. split; [done|].
      intros (server' & dt' & Hcls & _). by apply Hread in Hcls.
    + by left.
    + done.
Qed.

Lemma main_serving_condition_witness :
  let E := scripted_env [] (Resolved "PENDING") (Resolved []) in
  let argv := ["/usr/bin/node"; "dist/mcp-server/HITLProxy.js"] in
  main (static_MCPServerMap "secret") E argv 1700000000000 (λ _, Resolved ())
    = Exited 1
  ∧ (create (static_MCPServerMap "secret") (select_server_name argv) E 1700000000000).2
    = new_HITLProxy 1700000000000.
Proof.
  intros E argv.
  apply (main_serving_condition "secret" E argv 1700000000000
           (λ _, Resolved ())).
  simpl. lia.
Defined.

(** ** Status checks, continued *)

(** A task identifier a query will not poll: nothing is parked under
    it, or what is parked has no usable out-of-band code. *)
Definition unpollable (w : world) (taskId : string) : Prop :=
  ∀ t oob, pendingTasks w !! taskId = Some t → hitlOobCode t = Some oob → oob = "".

Lemma handleTaskStatusCheck_unpollable (E : Env) taskId w :
  unpollable w taskId →
  handleTaskStatusCheck E taskId w = (not_found_payload taskId, w).
Proof.
  intros Hun. unfold handleTaskStatusCheck. unfold_M.
  destruct (pendingTasks w !! taskId) as [t|] eqn:Hw; [|done].
  destruct (hitlOobCode t) as [oob|] eqn:Ho; [|done].
  by rewrite (Hun t oob Hw Ho).
Qed.


(** The two ways out of the loop body. *)
Lemma poll_continue (E : Env) fuel taskId startTime lastresult w result w1 :
  (clock w < startTime + 10000)%Z →
  handleTaskStatusCheck E taskId w = (result, w1) →
  (let status := opt_chain (opt_chain result "structuredContent") "status" in
   truthy status && negb (strict_eq_str status "PENDING")) = false →
  poll E (S fuel) taskId startTime lastresult w
  = poll E fuel taskId startTime (nullish_coalesce result lastresult)
      (sleep E 4000 w1).2.
Proof.
  intros Hclk Hq Hst. rewrite poll_unfold.
  destruct (Z.ltb_spec (clock w) (startTime + 10000)); [|lia].
  rewrite Hq. simpl in *. by rewrite Hst.
Qed.

Lemma poll_return (E : Env) fuel taskId startTime lastresult w result w1 :
  (clock w < startTime + 10000)%Z →
  handleTaskStatusCheck E taskId w = (result, w1) →
  (let status := opt_chain (opt_chain result "structuredContent") "status" in
   truthy status && negb (strict_eq_str status "PENDING")) = true →
  poll E (S fuel) taskId startTime lastresult w = (Some result, w1).
Proof.
  intros Hclk Hq Hst. rewrite poll_unfold.
  destruct (Z.ltb_spec (clock w) (startTime + 10000)); [|lia].
  rewrite Hq. simpl in *. by rewrite Hst.
Qed.

Lemma poll_deadline (E : Env) fuel taskId startTime lastresult w :
  (startTime + 10000 ≤ clock w)%Z →
  poll E (S fuel) taskId startTime lastresult w = (Some lastresult, w).
Proof.
  intros Hclk. rewrite poll_unfold.
  by destruct (Z.ltb_spec (clock w) (startTime + 10000)); [lia|].
Qed.


(** Polling such an identifier only sleeps, at most [k] times when the
    clock is within [4000 * k] of the deadline. *)
Lemma poll_unpollable (E : Env) fuel (k : nat) taskId startTime lastresult w :
  unpollable w taskId →
  (startTime + 10000 - 4000 * Z.of_nat k ≤ clock w)%Z →
  ∃ n : nat,
    (n ≤ k)%nat
    ∧ trace (poll E fuel taskId startTime lastresult w).2
      = replicate n (EvSetTimeout 4000) ++ trace w
    ∧ pendingTasks (poll E fuel taskId startTime lastresult w).2 = pendingTasks w
    ∧ ((poll E fuel taskId startTime lastresult w).1 = None
       ∨ (n = 0%nat ∧ (poll E fuel taskId startTime lastresult w).1 = Some lastresult
          ∧ (startTime + 10000 ≤ clock w)%Z)
       ∨ ((0 < n)%nat
          ∧ (poll E fuel taskId startTime lastresult w).1
            = Some (not_found_payload taskId)
          ∧ (clock w < startTime + 10000)%Z)).
Proof.
  revert k lastresult w. induction fuel as [|fuel IH]; intros k lastresult w Hun Hk.
  { exists 0%nat. simpl. split; [lia|]. auto. }
  destruct (Z.lt_ge_cases (clock w) (startTime + 10000)) as [Hclk|Hclk].
  2:{ rewrite poll_deadline by done. exists 0%nat. simpl. split; [lia|].
      split; [done|]. split; [done|]. right. left. auto. }
  rewrite (poll_continue E fuel taskId startTime lastresult w
             (not_found_payload taskId) w) by
    (done || by apply handleTaskStatusCheck_unpollable).
  destruct k as [|k]; [lia|].
  destruct (IH k (nullish_coalesce (not_found_payload taskId) lastresult)
              (sleep E 4000 w).2) as (n & Hn & Htr & Hpt & Hres).
  { done. }
  { simpl. lia. }
  exists (S n). split; [lia|].
  split; [by rewrite Htr, <- replicate_snoc_cons|]. split; [done|].
  destruct Hres as [Hres|[(-> & Hres & _)|(Hpos & Hres & _)]].
  - by left.
  - right. right. split; [lia|]. by rewrite Hres.
  - right. right. split; [lia|]. by rewrite Hres.
Qed.



(** X7: a status check for one task is no business of the others.  It
    never parks anything, every task parked under another identifier is
    left exactly as it was, and the task asked about is afterwards
    either gone or unchanged. *)
Theorem status_check_leaves_other_tasks_alone
    (cfgs : gmap string MCPServerConfig) (srv : string) (E : Env)
    (fuel : nat) (taskId : string) (arguments meta : json) (w : world) :
  get_prop arguments "taskId" = JStr taskId →
  let w' := (CallToolRequest_handler cfgs srv E fuel "check_task_status"
               arguments meta w).2 in
  (∀ k, k ≠ taskId → pendingTasks w' !! k = pendingTasks w !! k)
  ∧ (pendingTasks w' !! taskId = None
     ∨ pendingTasks w' !! taskId = pendingTasks w !! taskId)
  ∧ (size (pendingTasks w') ≤ size (pendingTasks w))%nat.
Proof.
  intros Hargs. unfold CallToolRequest_handler, check_task_status. simpl. unfold_M.
  rewrite Hargs, (get_taskId_is_object _ _ Hargs). simpl.
  pose proof (poll_effects E fuel taskId (clock w) JUndefined w) as (_ & Hdom & Hoth).
  destruct (poll E fuel taskId (clock w) JUndefined w) as [o w']. simpl in *.
  split; [done|]. split; [done|].
  destruct (Hdom taskId) as [Hgone|Hsame].
  - assert (pendingTasks w' = delete taskId (pendingTasks w)) as ->.
    { apply map_eq. intros k. destruct (decide (k = taskId)) as [->|Hk].
      - by rewrite lookup_delete_eq.
      - rewrite lookup_delete_ne by done. by apply Hoth. }
    rewrite map_size_delete. destruct (pendingTasks w !! taskId); simpl; lia.
  - assert (pendingTasks w' = pendingTasks w) as ->; [|done].
    apply map_eq. intros k. destruct (decide (k = taskId)) as [->|Hk]; auto.
Qed.

Lemma status_check_leaves_other_tasks_alone_witness :
  let E := scripted_env [] (Rejected (Error "denied")) (Resolved []) in
  let w := World {[ "task-1-aaaa" := Task "add_todos" JNull PENDING (Some "oob-1");
                    "task-2-bbbb" := Task "add_todos" JNull PENDING (Some "oob-2") ]}
                 1700000000000 [] in
  let w' := (CallToolRequest_handler (static_MCPServerMap "secret") "todo-mcp-server"
               E 4 "check_task_status" (JObj [("taskId", JStr "task-1-aaaa")])
               JUndefined w).2 in
  (∀ k, k ≠ "task-1-aaaa" → pendingTasks w' !! k = pendingTasks w !! k)
  ∧ (pendingTasks w' !! "task-1-aaaa" = None
     ∨ pendingTasks w' !! "task-1-aaaa" = pendingTasks w !! "task-1-aaaa")
  ∧ (size (pendingTasks w') ≤ size (pendingTasks w))%nat.
Proof.
  intros E w.
  apply (status_check_leaves_other_tasks_alone (static_MCPServerMap "secret")
           "todo-mcp-server" E 4 "task-1-aaaa").
  reflexivity.
Defined.

(** X8: a task parked with an empty out-of-band code is stuck.  If the
    approval service resolves [sendApprovalRequest] with the empty
    string, the high-risk call is parked all the same; from then on a
    status check for it never polls the channel, answers with the
    not-found payload, and leaves the task parked: nothing the caller
    can do removes it. *)
Theorem empty_code_task_is_stuck
    (cfgs : gmap string MCPServerConfig) (srv : string) (E : Env)
    (fuel : nat) (taskId : string) (arguments meta : json) (w : world) (t : task) :
  pendingTasks w !! taskId = Some t →
  hitlOobCode t = Some "" →
  get_prop arguments "taskId" = JStr taskId →
  (4 ≤ fuel)%nat →
  handleTaskStatusCheck E taskId w = (not_found_payload taskId, w)
  ∧ ∃ w',
      CallToolRequest_handler cfgs srv E fuel "check_task_status" arguments meta w
        = (Some (Resolved (not_found_payload taskId)), w')
      ∧ pendingTasks w' = pendingTasks w
      ∧ count is_check (trace w') = count is_check (trace w)
      ∧ count is_call (trace w') = count is_call (trace w).
Proof.
  intros Hw Ho Hargs Hfuel.
  assert (unpollable w taskId) as Hun by (intros t' oob; congruence).
  split; [by apply handleTaskStatusCheck_unpollable|].
  unfold CallToolRequest_handler, check_task_status. simpl. unfold_M.
  rewrite Hargs, (get_taskId_is_object _ _ Hargs). simpl.
  destruct (poll_total E 3 fuel taskId (clock w) JUndefined w) as [r Hr];
    [lia|lia|].
  destruct (poll_unpollable E fuel 3 taskId (clock w) JUndefined w Hun)
    as (n & _ & Htr & Hpt & Hres); [lia|].
  destruct (poll E fuel taskId (clock w) JUndefined w) as [o w']. simpl in *.
  subst o. exists w'.
  destruct Hres as [?|[(_ & _ & ?)|(_ & [= ->] & _)]]; [done|lia|].
  split; [done|]. split; [done|].
  rewrite Htr, !count_app. by rewrite !count_replicate_other.
Qed.

Lemma empty_code_task_is_stuck_witness :
  let E := scripted_env [] (Resolved "APPROVED") (Resolved []) in
  let taskId := "task-1700000000000-k3x9" in
  let w := World {[ taskId := Task "add_todos" JNull PENDING (Some "") ]}
                 1700000000000 [] in
  handleTaskStatusCheck E taskId w = (not_found_payload taskId, w)
  ∧ ∃ w',
      CallToolRequest_handler (static_MCPServerMap "secret") "todo-mcp-server" E 4
        "check_task_status" (JObj [("taskId", JStr taskId)]) JUndefined w
        = (Some (Resolved (not_found_payload taskId)), w')
      ∧ pendingTasks w' = pendingTasks w
      ∧ count is_check (trace w') = count is_check (trace w)
      ∧ count is_call (trace w') = count is_call (trace w).
Proof.
  intros E taskId w.
  apply (empty_code_task_is_stuck (static_MCPServerMap "secret") "todo-mcp-server"
           E 4 taskId (JObj [("taskId", JStr taskId)]) JUndefined w
           (Task "add_todos" JNull PENDING (Some "")));
    [vm_compute; reflexivity | reflexivity | reflexivity | lia].
Defined.

(** While the channel answers without approving, the loop only polls
    and sleeps, and the last payload is the still-pending one. *)
Lemma poll_waiting (E : Env) fuel taskId startTime lastresult w (t : task) oob :
  pollable w taskId t oob →
  (∀ tr, ∃ answer dt, checkForApproval E tr oob = (Resolved answer, dt)
                      ∧ answer ≠ "APPROVED") →
  let out := poll E fuel taskId startTime lastresult w in
  pendingTasks out.2 = pendingTasks w
  ∧ (∃ seg, trace out.2 = seg ++ trace w ∧ count is_call seg = 0%nat)
  ∧ (∀ r, out.1 = Some r →
       (startTime + 10000 ≤ clock out.2)%Z
       ∧ (r = lastresult ∧ out.2 = w
          ∨ r = still_pending_payload taskId (toolName t))).
Proof.
  intros Hp Hwait. revert lastresult w Hp.
  induction fuel as [|fuel IH]; intros lastresult w Hp.
  { simpl. split; [done|]. split; [by exists []|]. done. }
  destruct (Z.lt_ge_cases (clock w) (startTime + 10000)) as [Hclk|Hclk].
  2:{ rewrite poll_deadline by done. simpl. split; [done|].
      split; [by exists []|]. intros r [= <-]. auto. }
  destruct (Hwait (trace w)) as (answer & dt & Hc & Ha).
  pose proof Hp as (Hw & Ho & Hne).
  rewrite (poll_continue E fuel taskId startTime lastresult w _ _ Hclk
             (handleTaskStatusCheck_waiting E taskId w t oob answer dt
                Hw Ho Hne Hc Ha)) by done.
  match goal with |- context [poll E fuel taskId startTime ?l ?w2] =>
    destruct (IH l w2) as (Hpt & (seg & Htr & Hcalls) & Hres)
  end.
  { done. }
  split; [done|]. split.
  - exists (seg ++ [EvSetTimeout 4000; EvCheckForApproval oob (Resolved answer)]).
    rewrite Htr, count_app, Hcalls. simpl. by rewrite <- app_assoc.
  - intros r Hr. destruct (Hres r Hr) as (Hd & [(-> & _)| ->]); auto.
Qed.

(** X9: a status check that the approver has not answered yet.  If the
    channel resolves every poll of the task's code with anything but
    ["APPROVED"], the request ends once the ten-second window is over
    and answers with the still-pending payload, whose
    [structuredContent.status] is ["PENDING"]; the task stays parked as
    it was and the downstream server is not contacted. *)
Theorem unanswered_status_check_times_out
    (cfgs : gmap string MCPServerConfig) (srv : string) (E : Env)
    (fuel : nat) (taskId : string) (arguments meta : json) (w : world)
    (t : task) (oob : string) :
  pollable w taskId t oob →
  (∀ tr, ∃ answer dt, checkForApproval E tr oob = (Resolved answer, dt)
                      ∧ answer ≠ "APPROVED") →
  get_prop arguments "taskId" = JStr taskId →
  (4 ≤ fuel)%nat →
  ∃ w',
    CallToolRequest_handler cfgs srv E fuel "check_task_status" arguments meta w
      = (Some (Resolved (still_pending_payload taskId (toolName t))), w')
    ∧ opt_chain (opt_chain (still_pending_payload taskId (toolName t))
                   "structuredContent") "status" = JStr "PENDING"
    ∧ pendingTasks w' = pendingTasks w
    ∧ (clock w + 10000 ≤ clock w')%Z
    ∧ count is_call (trace w') = count is_call (trace w).
Proof.
  intros Hp Hwait Hargs Hfuel.
  unfold CallToolRequest_handler, check_task_status. simpl. unfold_M.
  rewrite Hargs, (get_taskId_is_object _ _ Hargs). simpl.
  destruct (poll_total E 3 fuel taskId (clock w) JUndefined w) as [r Hr];
    [lia|lia|].
  pose proof (poll_waiting E fuel taskId (clock w) JUndefined w t oob Hp Hwait)
    as (Hpt & (seg & Htr & Hcalls) & Hres).
  destruct (poll E fuel taskId (clock w) JUndefined w) as [o w']. simpl in *.
  subst o. exists w'.
  destruct (Hres r eq_refl) as (Hclk & [(_ & ->)| ->]); [lia|].
  split; [done|]. split; [done|]. split; [done|]. split; [done|].
  rewrite Htr, count_app, Hcalls. done.
Qed.

Lemma unanswered_status_check_times_out_witness :
  let E := scripted_env [] (Resolved "authorization_pending") (Resolved []) in
  let taskId := "task-1700000000000-k3x9" in
  let t := Task "add_todos" (JObj [("title", JStr "x")]) PENDING (Some "oob-1") in
  let w := World {[ taskId := t ]} 1700000005000 [] in
  ∃ w',
    CallToolRequest_handler (static_MCPServerMap "secret") "todo-mcp-server" E 4
      "check_task_status" (JObj [("taskId", JStr taskId)]) JUndefined w
      = (Some (Resolved (still_pending_payload taskId (toolName t))), w')
    ∧ opt_chain (opt_chain (still_pending_payload taskId (toolName t))
                   "structuredContent") "status" = JStr "PENDING"
    ∧ pendingTasks w' = pendingTasks w
    ∧ (clock w + 10000 ≤ clock w')%Z
    ∧ count is_call (trace w') = count is_call (trace w).
Proof.
  intros E taskId t w.
  apply (unanswered_status_check_times_out (static_MCPServerMap "secret")
           "todo-mcp-server" E 4 taskId (JObj [("taskId", JStr taskId)])
           JUndefined w t "oob-1").
  - split; [vm_compute; reflexivity|]. split; [reflexivity|]. discriminate.
  - intros tr. exists "authorization_pending", 0%N. split; [reflexivity|discriminate].
  - reflexivity.
  - lia.
Defined.



(** X11: what the spread does to the result of an approved tool.  Every
    property of the downstream result is handed on unchanged, an
    [isError] flag included, so a tool run that reports an error of its
    own is still answered with status ["COMPLETED"]; a
    [structuredContent] of the downstream result is dropped in favour of
    [{status, tool}]. *)
Theorem approved_result_keeps_all_but_structuredContent
    (E : Env) (taskId : string) (w : world) (t : task) (oob : string)
    (dt dt' : N) (res : obj) :
  pollable w taskId t oob →
  checkForApproval E (trace w) oob = (Resolved "APPROVED", dt) →
  downstream_callTool E (EvCheckForApproval oob (Resolved "APPROVED") :: trace w)
    (toolName t) (toolArgs t) = (Resolved res, dt') →
  let payload := (handleTaskStatusCheck E taskId w).1 in
  (∀ k, k ≠ "structuredContent" → get_prop payload k = obj_get res k)
  ∧ get_prop payload "structuredContent"
    = JObj [("status", JStr "COMPLETED"); ("tool", JStr (toolName t))].
Proof.
  intros (Hw & Ho & Hne) Hc Hd payload. subst payload.
  erewrite handleTaskStatusCheck_approved by done. cbn [fst].
  split.
  - intros k Hk. by apply completed_keeps_result.
  - unfold completed_payload, get_prop. apply obj_get_set_eq.
Qed.

Lemma approved_result_keeps_all_but_structuredContent_witness :
  let res := [("content", JArr [text_content "title is required"]);
              ("structuredContent", JObj [("code", JNum 400)]);
              ("isError", JBool true)] in
  let E := scripted_env [] (Resolved "APPROVED") (Resolved res) in
  let taskId := "task-1700000000000-k3x9" in
  let t := Task "add_todos" (JObj []) PENDING (Some "oob-1") in
  let w := World {[ taskId := t ]} 1700000005000 [] in
  let payload := (handleTaskStatusCheck E taskId w).1 in
  (∀ k, k ≠ "structuredContent" → get_prop payload k = obj_get res k)
  ∧ get_prop payload "structuredContent"
    = JObj [("status", JStr "COMPLETED"); ("tool", JStr (toolName t))].
Proof.
  intros res E taskId t w.
  apply (approved_result_keeps_all_but_structuredContent E taskId w t "oob-1"
           0%N 0%N res).
  - split; [vm_compute; reflexivity|]. split; [reflexivity|]. discriminate.
  - reflexivity.
  - reflexivity.
Defined.

(** ** The two views of a handler agree *)

Lemma run_suspend {A} (step : M (proc A)) (w : world) :
  run (suspend step) w = run (step w).1 (step w).2.
Proof. reflexivity. Qed.

Lemma run_await {A B} (p : proc A) (k : A → M (proc B)) (w : world) :
  run (await p k) w = run_async (k (run p w).1) (run p w).2.
Proof.
  revert w. induction p as [a|next IH after]; intros w; simpl; [done|].
  apply IH.
Qed.

Lemma run_await_io {A B} (ev : A → event) (answer : list event → A * N)
    (k : A → M (proc B)) (w : world) :
  run (await_io ev answer k) w
  = run_async (k (interact ev answer w).1) (interact ev answer w).2.
Proof.
  unfold await_io. rewrite run_suspend. unfold_M.
  by destruct (answer (trace w)).
Qed.

Lemma run_proc_map {A B} (f : A → B) (p : proc A) (w : world) :
  run (proc_map f p) w = (f (run p w).1, (run p w).2).
Proof.
  revert w. induction p as [a|next IH after]; intros w; simpl; [done|].
  apply IH.
Qed.

Lemma run_await_timer {B} (E : Env) (k : M (proc B)) (w : world) :
  run_async (await_timer E 4000 k) w = run_async k (sleep E 4000 w).2.
Proof.
  unfold run_async, await_timer. simpl. unfold_M. simpl.
  by rewrite Z.max_r by lia.
Qed.

Section Agreement.
Variable cfgs : gmap string MCPServerConfig.
Variable srv : string.
Variable E : Env.

Lemma handleTaskStatusCheck_async_run (taskId : string) (w : world) :
  run_async (handleTaskStatusCheck_async E taskId) w
  = handleTaskStatusCheck E taskId w.
Proof.
  unfold run_async, handleTaskStatusCheck_async, handleTaskStatusCheck,
    handleTaskStatusCheck_catch, await_io, suspend.
  unfold_M.
  destruct (pendingTasks w !! taskId) as [t|]; [|done].
  destruct (hitlOobCode t) as [oob|]; [|done].
  destruct (bool_decide (oob = "")); [done|].
  simpl.
  destruct (checkForApproval E (trace w) oob) as [[answer|e] dt]; simpl; [|done].
  destruct (bool_decide (answer = "APPROVED")); [|done].
  simpl.
  by destruct (downstream_callTool E _ _ _) as [[res|e] dt'].
Qed.

Lemma poll_async_run fuel taskId startTime lastresult w :
  run_async (poll_async E fuel taskId startTime lastresult) w
  = poll E fuel taskId startTime lastresult w.
Proof.
  revert lastresult w. induction fuel as [|fuel IH]; intros lastresult w; [done|].
  rewrite poll_unfold. unfold run_async. simpl. unfold_M.
  destruct (clock w <? startTime + 10000)%Z; [|done].
  pose proof (handleTaskStatusCheck_async_run taskId w) as Hq.
  unfold run_async in Hq.
  destruct (handleTaskStatusCheck_async E taskId w) as [query w0]. simpl in *.
  rewrite run_await, Hq.
  destruct (handleTaskStatusCheck E taskId w) as [result w1]. simpl.
  destruct (truthy _ && _); [done|].
  rewrite run_await_timer. apply IH.
Qed.

Lemma check_task_status_async_run fuel args w :
  run_async (check_task_status_async E fuel args) w
  = check_task_status E fuel args w.
Proof.
  unfold check_task_status_async, check_task_status.
  destruct (negb (truthy args) || _); [done|].
  destruct (get_prop args "taskId"); try done.
  pose proof (poll_async_run fuel s (clock w) JUndefined w) as Hp.
  unfold run_async in *. unfold_M. exact Hp.
Qed.

Lemma callTool_async_run name toolargs progressToken w :
  run_async (callTool_async cfgs srv E name toolargs progressToken) w
  = callTool cfgs srv E name toolargs progressToken w.
Proof.
  unfold run_async, callTool_async, callTool, await_io, suspend.
  destruct (MCPServerMap_get cfgs srv) as [[config|inherited]|]; [|done|done].
  destruct (includes (BlockedTools config) name); [done|].
  destruct (includes (HighRiskTools config) name).
  - unfold_M. simpl.
    destruct (sendApprovalRequest E _ _) as [[oob|e] dt]; simpl; [|done].
    by destruct (truthy progressToken).
  - unfold_M. simpl.
    by destruct (downstream_callTool E _ _ _) as [[res|e] dt].
Qed.

Lemma getTools_async_run w :
  run_async (getTools_async cfgs srv E) w = getTools cfgs srv E w.
Proof.
  unfold run_async, getTools_async, getTools, await_io, suspend.
  destruct (MCPServerMap_get cfgs srv); [|done].
  unfold_M. simpl.
  by destruct (downstream_listTools E (trace w)) as [[tools|e] dt].
Qed.

(** Every handler that runs alone computes the function given for it:
    cutting it at its [await]s changes nothing then. *)
Lemma handle_request_async_run fuel req w :
  run_async (handle_request_async cfgs srv E fuel req) w
  = handle_request cfgs srv E fuel req w.
Proof.
  destruct req as [name arguments meta|]; simpl.
  - unfold run_async, CallToolRequest_handler_async, CallToolRequest_handler.
    destruct (bool_decide (name = "check_task_status")).
    + pose proof (check_task_status_async_run fuel arguments w) as Hc.
      unfold run_async in Hc. unfold_M.
      destruct (check_task_status_async E fuel arguments w) as [p w0]. simpl in *.
      rewrite run_proc_map, Hc.
      by destruct (check_task_status E fuel arguments w).
    + destruct (bool_decide (name = "list_high_risk_tools")); [done|].
      pose proof (callTool_async_run name arguments
                    (opt_chain meta "progressToken") w) as Hc.
      unfold run_async in Hc. unfold_M.
      destruct (callTool_async cfgs srv E name arguments _ w) as [p w0]. simpl in *.
      rewrite run_proc_map, Hc.
      by destruct (callTool cfgs srv E name arguments _ w).
  - unfold run_async, ListToolsRequest_handler_async, ListToolsRequest_handler.
    pose proof (getTools_async_run w) as Hg. unfold run_async in Hg. unfold_M.
    destruct (getTools_async cfgs srv E w) as [p w0]. simpl in *.
    rewrite run_proc_map, run_await, Hg.
    by destruct (getTools cfgs srv E w).
Qed.

End Agreement.

(** ** Requests handled in turn *)

Lemma serve_from_cons cfgs srv E fuel a schedule pool w :
  serve_from cfgs srv E fuel (a :: schedule) pool w
  = serve_from cfgs srv E fuel schedule
      (act cfgs srv E fuel a pool w).1 (act cfgs srv E fuel a pool w).2.
Proof. simpl. by destruct (act cfgs srv E fuel a pool w). Qed.

Lemma serve_from_app cfgs srv E fuel s1 s2 pool w :
  serve_from cfgs srv E fuel (s1 ++ s2) pool w
  = serve_from cfgs srv E fuel s2
      (serve_from cfgs srv E fuel s1 pool w).1
      (serve_from cfgs srv E fuel s1 pool w).2.
Proof.
  revert pool w. induction s1 as [|a s1 IH]; intros pool w; [done|].
  rewrite <- app_comm_cons, !serve_from_cons. apply IH.
Qed.

Lemma resume_to_the_end cfgs srv E fuel i (p : proc (option (outcome json)))
    pool w :
  pool !! i = Some p →
  serve_from cfgs srv E fuel (replicate (awaits p w) (Resume i)) pool w
  = (<[i := Done (run p w).1]> pool, (run p w).2).
Proof.
  revert pool w. induction p as [a|next IH after]; intros pool w Hi.
  - simpl. by rewrite list_insert_id.
  - simpl awaits. simpl replicate. rewrite serve_from_cons. simpl act.
    rewrite Hi. cbn [fst snd].
    rewrite (IH w (<[i:=next w]> pool) (after w)).
    + by rewrite list_insert_insert_eq.
    + apply list_lookup_insert_eq. by eapply lookup_lt_Some.
Qed.

(** Handling requests in turn is one of the schedules: it leaves the
    answers and the world of the handlers run one after the other. *)
Lemma serve_in_turn cfgs srv E fuel reqs pool w :
  serve_from cfgs srv E fuel (in_turn cfgs srv E fuel reqs (length pool) w) pool w
  = (pool ++ map Done (handle_in_turn cfgs srv E fuel reqs w).1,
     (handle_in_turn cfgs srv E fuel reqs w).2).
Proof.
  revert pool w. induction reqs as [|req reqs IH]; intros pool w.
  { simpl. by rewrite app_nil_r. }
  simpl in_turn. rewrite serve_from_cons. simpl act.
  pose proof (handle_request_async_run cfgs srv E fuel req w) as Hrun.
  unfold run_async in Hrun.
  destruct (handle_request_async cfgs srv E fuel req w) as [p w1]. cbn [fst snd] in *.
  rewrite serve_from_app.
  rewrite (resume_to_the_end _ _ _ _ (length pool) p (pool ++ [p]) w1).
  2:{ rewrite lookup_app_r by done. by rewrite Nat.sub_diag. }
  cbn [fst snd].
  assert (<[length pool:=Done (run p w1).1]> (pool ++ [p])
          = pool ++ [Done (run p w1).1]) as ->.
  { rewrite insert_app_r_alt by done. by rewrite Nat.sub_diag. }
  specialize (IH (pool ++ [Done (run p w1).1]) (run p w1).2).
  rewrite length_app in IH. simpl in IH. rewrite Nat.add_1_r in IH.
  rewrite IH. simpl handle_in_turn. unfold_M. rewrite <- Hrun.
  destruct (run p w1) as [r w2]. cbn [fst snd].
  destruct (handle_in_turn cfgs srv E fuel reqs w2) as [rs w3]. simpl.
  by rewrite <- app_assoc.
Qed.

(** ** What holds throughout a session *)

(** A well-formed parked task: still PENDING, for a tool that is
    high-risk and not blocked, with the code the channel handed out. *)
Definition parked_ok (config : MCPServerConfig) (t : task) : Prop :=
  status t = PENDING
  ∧ toolName t ∈ HighRiskTools config
  ∧ ((toolName t ∉ BlockedTools config)
     ∧ is_Some (hitlOobCode t)).

(** The code of a task has been handed out by the channel, in answer to
    an approval request that the log holds. *)
Definition code_requested (tr : list event) (t : task) : Prop :=
  ∀ oob, hitlOobCode t = Some oob →
         EvSendApprovalRequest "bob@tables.fake" (Resolved oob) ∈ tr.

(** The channel has answered ["APPROVED"] somewhere in the log, for a
    code it had handed out. *)
Definition approved_in (tr : list event) : Prop :=
  ∃ oob, EvCheckForApproval oob (Resolved "APPROVED") ∈ tr
         ∧ EvSendApprovalRequest "bob@tables.fake" (Resolved oob) ∈ tr.

(** What every world of a session satisfies: the parked tasks are well
    formed and their codes come from the channel, no downstream call
    names a blocked tool, and every downstream call that names a
    high-risk tool comes after an ["APPROVED"] answer of the channel. *)
Record session_inv (config : MCPServerConfig) (w : world) : Prop := {
  inv_parked : ∀ k t, pendingTasks w !! k = Some t → parked_ok config t;
  inv_codes : ∀ k t, pendingTasks w !! k = Some t → code_requested (trace w) t;
  inv_not_blocked :
    ∀ name a r, EvCallTool name a r ∈ trace w → name ∉ BlockedTools config;
  inv_approved :
    ∀ later earlier name a r,
      trace w = later ++ EvCallTool name a r :: earlier →
      name ∈ HighRiskTools config → approved_in earlier;
}.

(** The same for a handler that is suspended: whenever it is resumed in
    a world of the session whose log extends [known], the log it was
    suspended with, it leaves a world of the session and what remains
    of it is again such a handler. *)
Fixpoint proc_inv {A} (config : MCPServerConfig) (known : list event)
    (p : proc A) : Prop :=
  match p with
  | Done _ => True
  | Await next after =>
      ∀ w, session_inv config w → known `suffix_of` trace w →
           session_inv config (after w)
           ∧ trace w `suffix_of` trace (after w)
           ∧ proc_inv config (trace (after w)) (next w)
  end.

Lemma elem_of_suffix {A} (x : A) (l1 l2 : list A) :
  x ∈ l1 → l1 `suffix_of` l2 → x ∈ l2.
Proof. intros Hx [k ->]. apply elem_of_app. by right. Qed.

Lemma proc_inv_mono {A} config (known known' : list event) (p : proc A) :
  known `suffix_of` known' → proc_inv config known p → proc_inv config known' p.
Proof.
  intros Hsuf. destruct p as [a|next after]; simpl; [done|].
  intros Hp w Hinv Hk. apply Hp; [done|]. by etrans.
Qed.

Lemma proc_inv_await {A B} config known (p : proc A) (k : A → M (proc B)) :
  proc_inv config known p →
  (∀ a w, session_inv config w → known `suffix_of` trace w →
          session_inv config (k a w).2
          ∧ trace w `suffix_of` trace (k a w).2
          ∧ proc_inv config (trace (k a w).2) (k a w).1) →
  proc_inv config known (await p k).
Proof.
  revert known. induction p as [a|next IH after]; intros known Hp Hk; simpl.
  - intros w Hinv Hsuf. by apply Hk.
  - intros w Hinv Hsuf. destruct (Hp w Hinv Hsuf) as (Hinv' & Hsuf' & Hnext).
    split; [done|]. split; [done|].
    apply IH; [done|]. intros a w' Hinv'' Hsuf''. apply Hk; [done|].
    etrans; [|done]. by etrans.
Qed.

Lemma proc_inv_map {A B} config known (f : A → B) (p : proc A) :
  proc_inv config known p → proc_inv config known (proc_map f p).
Proof.
  revert known. induction p as [a|next IH after]; intros known Hp; simpl; [done|].
  intros w Hinv Hsuf. destruct (Hp w Hinv Hsuf) as (Hinv' & Hsuf' & Hnext).
  split; [done|]. split; [done|]. by apply IH.
Qed.

(** Logging an event and replacing the map keeps a world in the
    session, if the new map is well formed and the event, when it is a
    downstream call, is an allowed one. *)
Lemma session_inv_update config w (m : gmap string task) (c : Z) (e : event) :
  session_inv config w →
  (∀ k t, m !! k = Some t →
          parked_ok config t ∧ code_requested (e :: trace w) t) →
  (∀ name a r, e = EvCallTool name a r →
     (name ∉ BlockedTools config)
     ∧ (name ∈ HighRiskTools config → approved_in (trace w))) →
  session_inv config (World m c (e :: trace w)).
Proof.
  intros [Hpk Hcd Hnb Hap] Hm He. split; simpl.
  - intros k t Hk. by apply (Hm k t).
  - intros k t Hk. by apply (Hm k t).
  - intros name a r Hin. apply elem_of_cons in Hin as [Heq|Hin]; [|eauto].
    by apply (He name a r).
  - intros [|e' later] earlier name a r Htr Hhigh; simpl in Htr.
    + injection Htr as Heq <-. by apply (He name a r).
    + injection Htr as _ Htr. eauto.
Qed.

(** The parked tasks stay well formed when an event is logged, and when
    one of them is deleted. *)
Lemma tasks_kept config w (e : event) :
  session_inv config w →
  ∀ k t, pendingTasks w !! k = Some t →
         parked_ok config t ∧ code_requested (e :: trace w) t.
Proof.
  intros Hinv k t Hk. split; [by eapply inv_parked|].
  intros oob Ho. apply list_elem_of_further. by eapply inv_codes.
Qed.

Lemma tasks_deleted config w (e : event) taskId :
  session_inv config w →
  ∀ k t, delete taskId (pendingTasks w) !! k = Some t →
         parked_ok config t ∧ code_requested (e :: trace w) t.
Proof.
  intros Hinv k t Hk. apply lookup_delete_Some in Hk as [_ Hk].
  by apply (tasks_kept config w e Hinv k t).
Qed.

Section Invariant.
Variable cfgs : gmap string MCPServerConfig.
Variable srv : string.
Variable E : Env.
Variable config : MCPServerConfig.
Hypothesis Hcfg : cfgs !! srv = Some config.

Lemma new_instance_inv (now : Z) : session_inv config (create cfgs srv E now).2.
Proof.
  unfold create, initializeDownstreamConnection.
  rewrite (MCPServerMap_get_own _ _ _ Hcfg). unfold_M. simpl.
  destruct (downstream_connect E [] (ConfigObject config)) as [r dt]. simpl.
  split; simpl.
  - intros k t Hk. by rewrite lookup_empty in Hk.
  - intros k t Hk. by rewrite lookup_empty in Hk.
  - intros name a r' Hin. apply elem_of_cons in Hin as [?|Hin]; [done|].
    by apply elem_of_nil in Hin.
  - intros [|e [|e' later]] earlier name a r' Htr; by simplify_eq/=.
Qed.

(** A step of a handler: it stays in the session and leaves a handler
    that does. *)
Definition step_inv {A} (known : list event) (step : M (proc A)) : Prop :=
  ∀ w, session_inv config w → known `suffix_of` trace w →
       session_inv config (step w).2
       ∧ trace w `suffix_of` trace (step w).2
       ∧ proc_inv config (trace (step w).2) (step w).1.

Lemma step_inv_done {A} known (a : A) : step_inv known (mret (Done a)).
Proof. intros w Hinv _. by split. Qed.

Lemma proc_inv_suspend {A} known (step : M (proc A)) :
  step_inv known step → proc_inv config known (suspend step).
Proof. intros Hstep w Hinv Hsuf. by apply Hstep. Qed.

Lemma handleTaskStatusCheck_async_inv taskId known :
  step_inv known (handleTaskStatusCheck_async E taskId).
Proof.
  intros w Hinv _. unfold handleTaskStatusCheck_async. unfold_M.
  destruct (pendingTasks w !! taskId) as [t|] eqn:Hw; [|by split].
  destruct (hitlOobCode t) as [oob|] eqn:Ho; [|by split].
  destruct (bool_decide (oob = "")); [by split|].
  simpl. split; [done|]. split; [done|].
  destruct (inv_parked _ _ Hinv _ _ Hw) as (_ & Hhigh & Hblock & _).
  pose proof (inv_codes _ _ Hinv _ _ Hw oob Ho) as Hsend.
  apply proc_inv_suspend. revert Hsend. generalize (trace w). clear w Hinv Hw.
  intros known' Hsend w Hinv Hsuf. unfold handleTaskStatusCheck_catch. unfold_M.
  pose proof (elem_of_suffix _ _ _ Hsend Hsuf) as Hsend'.
  destruct (checkForApproval E (trace w) oob) as [[answer|e] dt]; simpl.
  2:{ split; [|split; [by apply suffix_cons_r|done]].
      apply session_inv_update; [done|by apply tasks_deleted|done]. }
  destruct (decide (answer = "APPROVED")) as [->|Ha].
  2:{ rewrite bool_decide_eq_false_2 by done. simpl.
      split; [|split; [by apply suffix_cons_r|done]].
      apply session_inv_update; [done|by apply tasks_kept|done]. }
  simpl.
  split; [apply session_inv_update; [done|by apply tasks_kept|done]|].
  split; [by apply suffix_cons_r|].
  apply proc_inv_suspend. revert Hsend'. generalize (trace w).
  clear w Hinv Hsuf.
  intros known'' Hsend' w Hinv Hsuf. unfold_M.
  assert (approved_in (trace w)) as Happ.
  { exists oob. split.
    - eapply elem_of_suffix; [|done]. apply list_elem_of_here.
    - eapply elem_of_suffix; [|done]. by apply list_elem_of_further. }
  destruct (downstream_callTool E (trace w) (toolName t) (toolArgs t))
    as [[res|e] dt']; simpl.
  - split; [|split; [by apply suffix_cons_r|done]].
    apply session_inv_update; [done|by apply tasks_deleted|].
    by intros name a r [= <- _ _].
  - split; [|split; [by apply suffix_cons_r|done]].
    apply session_inv_update; [done|by apply tasks_deleted|].
    by intros name a r [= <- _ _].
Qed.

Lemma poll_async_inv fuel taskId startTime lastresult known :
  step_inv known (poll_async E fuel taskId startTime lastresult).
Proof.
  revert lastresult known.
  induction fuel as [|fuel IH]; intros lastresult known; [apply step_inv_done|].
  intros w Hinv Hsuf. simpl. unfold_M.
  destruct (clock w <? startTime + 10000)%Z; [|by split].
  destruct (handleTaskStatusCheck_async_inv taskId known w Hinv Hsuf)
    as (Hinv1 & Hsuf1 & Hq).
  destruct (handleTaskStatusCheck_async E taskId w) as [query w1]. simpl in *.
  split; [done|]. split; [done|].
  apply proc_inv_await; [done|].
  intros result w2 Hinv2 Hsuf2.
  destruct (truthy _ && _); [by split|].
  unfold await_timer. simpl. split; [done|]. split; [done|].
  apply proc_inv_suspend.
  intros w3 Hinv3 Hsuf3. unfold timer_fires. unfold_M. simpl.
  match goal with |- context [poll_async E fuel taskId startTime ?l ?w4] =>
    destruct (IH l (trace w4) w4) as (Hinv4 & Hsuf4 & Hp)
  end.
  { apply session_inv_update; [done|by apply tasks_kept|done]. }
  { done. }
  split; [done|]. split; [|done].
  etrans; [|exact Hsuf4]. simpl. by apply suffix_cons_r.
Qed.

Lemma callTool_async_inv name toolargs progressToken known :
  step_inv known (callTool_async cfgs srv E name toolargs progressToken).
Proof.
  intros w Hinv _. unfold callTool_async, includes.
  rewrite (MCPServerMap_get_own _ _ _ Hcfg).
  destruct (decide (name ∈ BlockedTools config)) as [Hb|Hb].
  { rewrite bool_decide_eq_true_2 by done. by split. }
  rewrite bool_decide_eq_false_2 by done.
  destruct (decide (name ∈ HighRiskTools config)) as [Hh|Hh].
  - rewrite bool_decide_eq_true_2 by done. unfold_M. simpl.
    split; [apply session_inv_update; [done|by apply tasks_kept|done]|].
    split; [by apply suffix_cons_r|].
    apply proc_inv_suspend.
    set (taskId := make_taskId (clock w) (Math_random E (trace w))).
    clearbody taskId. generalize (EvRandom (Math_random E (trace w)) :: trace w).
    clear w Hinv.
    intros known' w Hinv _. unfold_M.
    destruct (sendApprovalRequest E (trace w) "bob@tables.fake")
      as [[oob|e] dt]; simpl.
    2:{ split; [|split; [by apply suffix_cons_r|done]].
        apply session_inv_update; [done|by apply tasks_kept|done]. }
    assert (session_inv config
              (World (<[taskId := Task name toolargs PENDING (Some oob)]>
                        (pendingTasks w))
                     (clock w + Z.of_N dt)
                     (EvSendApprovalRequest "bob@tables.fake" (Resolved oob)
                        :: trace w))) as Hinv'.
    { apply session_inv_update; [done| |done].
      intros k t Hk. apply lookup_insert_Some in Hk as [[_ <-]|[_ Hk]].
      - split; [by repeat split|]. intros oob' [= <-]. apply list_elem_of_here.
      - by apply (tasks_kept config w _ Hinv k t). }
    destruct (truthy progressToken); simpl.
    + split; [done|]. split; [by apply suffix_cons_r|].
      intros w' Hinv'' _. unfold_M. simpl.
      split; [|split; [by apply suffix_cons_r|done]].
      apply session_inv_update; [done|by apply tasks_kept|done].
    + split; [done|]. split; [by apply suffix_cons_r|done].
  - rewrite bool_decide_eq_false_2 by done. unfold_M. simpl.
    split; [done|]. split; [done|].
    apply proc_inv_suspend. generalize (trace w). clear w Hinv.
    intros known' w Hinv _. unfold_M.
    destruct (downstream_callTool E (trace w) name toolargs) as [r dt].
    assert (session_inv config
              (World (pendingTasks w) (clock w + Z.of_N dt)
                     (EvCallTool name toolargs r :: trace w))) as Hinv'.
    { apply session_inv_update; [done|by apply tasks_kept|].
      by intros name' a r' [= <- _ _]. }
    destruct r; simpl; (split; [done|]); (split; [by apply suffix_cons_r|done]).
Qed.

Lemma handle_request_async_inv fuel req known :
  step_inv known (handle_request_async cfgs srv E fuel req).
Proof.
  intros w Hinv Hsuf. destruct req as [name arguments meta|]; simpl.
  - unfold CallToolRequest_handler_async.
    destruct (bool_decide (name = "check_task_status")).
    + unfold check_task_status_async.
      destruct (negb (truthy arguments) || _); [by split|].
      destruct (get_prop arguments "taskId") as [| | | |taskId| |];
        try by split.
      unfold_M.
      destruct (poll_async_inv fuel taskId (clock w) JUndefined known w Hinv Hsuf)
        as (Hinv' & Hsuf' & Hp).
      destruct (poll_async E fuel taskId (clock w) JUndefined w) as [p w'].
      simpl in *. split; [done|]. split; [done|]. by apply proc_inv_map.
    + destruct (bool_decide (name = "list_high_risk_tools")); [by split|].
      unfold_M.
      destruct (callTool_async_inv name arguments (opt_chain meta "progressToken")
                  known w Hinv Hsuf) as (Hinv' & Hsuf' & Hp).
      destruct (callTool_async cfgs srv E name arguments _ w) as [p w'].
      simpl in *. split; [done|]. split; [done|]. by apply proc_inv_map.
  - unfold ListToolsRequest_handler_async, getTools_async.
    rewrite (MCPServerMap_get_own _ _ _ Hcfg). unfold_M. simpl.
    split; [done|]. split; [done|].
    intros w' Hinv' _. unfold_M.
    destruct (downstream_listTools E (trace w')) as [[tools|e] dt]; simpl;
      (split; [apply session_inv_update; [done|by apply tasks_kept|done]|]);
      (split; [by apply suffix_cons_r|]);
      intros w'' Hinv'' _; by split.
Qed.

(** The pool of a session: every handler in it is one of the session,
    for the log as it stands. *)
Definition pool_inv (pool : list (proc (option (outcome json)))) (w : world)
  : Prop :=
  session_inv config w ∧ Forall (proc_inv config (trace w)) pool.

Lemma act_inv fuel a pool w :
  pool_inv pool w →
  pool_inv (act cfgs srv E fuel a pool w).1 (act cfgs srv E fuel a pool w).2.
Proof.
  intros [Hinv Hpool]. destruct a as [req|i]; simpl.
  - destruct (handle_request_async_inv fuel req (trace w) w Hinv)
      as (Hinv' & Hsuf & Hp); [done|].
    destruct (handle_request_async cfgs srv E fuel req w) as [p w']. simpl in *.
    split; [done|]. apply Forall_app. split; [|by apply Forall_singleton].
    eapply Forall_impl; [done|]. intros q. by apply proc_inv_mono.
  - destruct (pool !! i) as [[r|next after]|] eqn:Hi; simpl; try done.
    destruct (proj1 (Forall_lookup _ _) Hpool i _ Hi w Hinv)
      as (Hinv' & Hsuf & Hnext); [done|].
    split; [done|].
    apply Forall_insert; [|done].
    eapply Forall_impl; [done|]. intros q. by apply proc_inv_mono.
Qed.

Lemma serve_from_inv fuel schedule pool w :
  pool_inv pool w →
  session_inv config (serve_from cfgs srv E fuel schedule pool w).2.
Proof.
  revert pool w. induction schedule as [|a schedule IH]; intros pool w Hinv.
  { apply Hinv. }
  simpl. pose proof (act_inv fuel a pool w Hinv) as Hact.
  destruct (act cfgs srv E fuel a pool w) as [pool' w']. by apply IH.
Qed.

Lemma serve_inv fuel schedule now :
  session_inv config
    (serve cfgs srv E fuel schedule (create cfgs srv E now).2).2.
Proof.
  apply serve_from_inv. split; [apply new_instance_inv|constructor].
Qed.

End Invariant.

(** X12: throughout any session of an instance, however the handlers of
    its requests interleave at their [await]s, every parked task is
    PENDING, names a tool that is high-risk and not blocked, and carries
    the out-of-band code of its approval request.  The statuses
    APPROVED and DENIED never appear in [pendingTasks]: a task that
    reaches either outcome is deleted instead. *)
Theorem parked_tasks_are_pending_high_risk
    (cfgs : gmap string MCPServerConfig) (srv : string) (E : Env)
    (config : MCPServerConfig) (fuel : nat) (now : Z) (schedule : list action)
    (k : string) (t : task) :
  cfgs !! srv = Some config →
  pendingTasks (serve cfgs srv E fuel schedule (create cfgs srv E now).2).2 !! k
    = Some t →
  status t = PENDING
  ∧ toolName t ∈ HighRiskTools config
  ∧ (toolName t ∉ BlockedTools config)
  ∧ is_Some (hitlOobCode t).
Proof.
  intros Hcfg Hk.
  exact (inv_parked _ _ (serve_inv cfgs srv E config Hcfg fuel schedule now) k t Hk).
Qed.

(** X13: no session makes the downstream server run a blocked tool.
    Whatever the requests, the way their handlers interleave and the
    answers of the collaborators, no downstream call in the log names a
    tool of [BlockedTools]. *)
Theorem blocked_tools_never_reach_downstream
    (cfgs : gmap string MCPServerConfig) (srv : string) (E : Env)
    (config : MCPServerConfig) (fuel : nat) (now : Z) (schedule : list action)
    (name : string) (a : json) (r : outcome obj) :
  cfgs !! srv = Some config →
  EvCallTool name a r
    ∈ trace (serve cfgs srv E fuel schedule (create cfgs srv E now).2).2 →
  name ∉ BlockedTools config.
Proof.
  intros Hcfg Hin.
  exact (inv_not_blocked _ _ (serve_inv cfgs srv E config Hcfg fuel schedule now)
           name a r Hin).
Qed.


(** A session for the examples: [add_todos] is parked while [get_todos]
    is forwarded and the blocked [welcome_to_okta] is refused; then two
    status checks and a list-tools request overlap. *)
Definition example_schedule (taskId : string) : list action :=
  [Arrive (CallToolRequest "add_todos" (JObj [("title", JStr "x")]) JUndefined);
   Arrive (CallToolRequest "get_todos" (JObj []) JUndefined);
   Arrive (CallToolRequest "welcome_to_okta" (JObj []) JUndefined);
   Resume 0;
   Arrive (CallToolRequest "check_task_status" (JObj [("taskId", JStr taskId)])
             JUndefined);
   Arrive ListToolsRequest;
   Arrive (CallToolRequest "check_task_status" (JObj [("taskId", JStr taskId)])
             JUndefined);
   Resume 3; Resume 1; Resume 5; Resume 4; Resume 3; Resume 5; Resume 3;
   Resume 5; Resume 4].

Lemma parked_tasks_are_pending_high_risk_witness :
  let t := Task "add_todos" (JObj [("title", JStr "x")]) PENDING (Some "oob-1") in
  status t = PENDING
  ∧ toolName t ∈ HighRiskTools (todo_mcp_server "secret")
  ∧ (toolName t ∉ BlockedTools (todo_mcp_server "secret"))
  ∧ is_Some (hitlOobCode t).
Proof.
  intros t.
  apply (parked_tasks_are_pending_high_risk (static_MCPServerMap "secret")
           "todo-mcp-server"
           (scripted_env [20; 3; 33; 9]%N (Resolved "PENDING") (Resolved []))
           (todo_mcp_server "secret") 4 1700000000000
           (example_schedule "task-1700000000000-k3x9")
           "task-1700000000000-k3x9" t).
  - vm_compute; reflexivity.
  - vm_compute; reflexivity.
Defined.

Lemma blocked_tools_never_reach_downstream_witness :
  "get_todos" ∉ BlockedTools (todo_mcp_server "secret").
Proof.
  apply (blocked_tools_never_reach_downstream (static_MCPServerMap "secret")
           "todo-mcp-server"
           (scripted_env [20; 3; 33; 9]%N (Resolved "PENDING") (Resolved []))
           (todo_mcp_server "secret") 4 1700000000000
           (example_schedule "task-1700000000000-k3x9")
           "get_todos" (JObj []) (Resolved [])).
  - vm_compute; reflexivity.
  - vm_compute. repeat (first [apply list_elem_of_here | apply list_elem_of_further]).
Defined.


(** ** Overlapping status checks *)

(** Resuming a suspended handler once. *)
Definition resumes {A} (p : proc A) (w : world) (p' : proc A) (w' : world)
  : Prop :=
  match p with
  | Await next after => p' = next w ∧ w' = after w
  | Done _ => False
  end.

Lemma act_resume cfgs srv E fuel i pool w p p' w' :
  pool !! i = Some p → resumes p w p' w' →
  act cfgs srv E fuel (Resume i) pool w = (<[i := p']> pool, w').
Proof.
  intros Hi Hp. simpl. rewrite Hi.
  destruct p as [a|next after]; [done|]. by destruct Hp as [-> ->].
Qed.

Section Overlap.
Variable cfgs : gmap string MCPServerConfig.
Variable srv : string.
Variable E : Env.
Variable fuel : nat.
Variable taskId : string.

Definition status_request : request :=
  CallToolRequest "check_task_status" (JObj [("taskId", JStr taskId)]) JUndefined.

(** The handler of a status check that found its task parked holds on
    to what it has read.  Whatever the world has become when it is
    resumed, and whether or not the task is still parked then, an
    ["APPROVED"] answer makes it call the tool, and the result of the
    tool makes it answer COMPLETED. *)
Lemma status_check_holds_its_task w0 (t : task) oob :
  pollable w0 taskId t oob →
  (handle_request_async cfgs srv E (S fuel) status_request w0).2 = w0
  ∧ ∀ w1 dt1,
      checkForApproval E (trace w1) oob = (Resolved "APPROVED", dt1) →
      ∃ p1,
        resumes (handle_request_async cfgs srv E (S fuel) status_request w0).1 w1
          p1 (World (pendingTasks w1) (clock w1 + Z.of_N dt1)
                (EvCheckForApproval oob (Resolved "APPROVED") :: trace w1))
        ∧ ∀ w2 res dt2,
            downstream_callTool E (trace w2) (toolName t) (toolArgs t)
              = (Resolved res, dt2) →
            ∃ p2,
              resumes p1 w2
                p2 (World (delete taskId (pendingTasks w2)) (clock w2 + Z.of_N dt2)
                      (EvCallTool (toolName t) (toolArgs t) (Resolved res)
                         :: trace w2))
              ∧ ∀ w3,
                  resumes p2 w3
                    (Done (Some (Resolved (completed_payload res (toolName t)))))
                    w3.
Proof.
  intros (Hw & Ho & Hne).
  unfold status_request, handle_request_async, CallToolRequest_handler_async,
    check_task_status_async. simpl.
  unfold handleTaskStatusCheck_async, await_io, suspend. unfold_M.
  assert ((clock w0 <? clock w0 + 10000)%Z = true) as Hlt by (apply Z.ltb_lt; lia).
  simpl. rewrite Hlt, Hw, Ho. rewrite bool_decide_eq_false_2 by done.
  simpl. split; [done|].
  intros w1 dt1 Hc. eexists. split.
  { split; [reflexivity|]. by rewrite Hc. }
  rewrite Hc. simpl.
  intros w2 res dt2 Hd. eexists. split.
  { split; [reflexivity|]. by rewrite Hd. }
  rewrite Hd. simpl.
  intros w3. rewrite status_of_completed. simpl. done.
Qed.

End Overlap.

(** X15: overlapping status checks replay the tool.  Let a task be
    parked with a non-empty code, and let two [check_task_status]
    requests for it arrive before either handler is resumed.  If the
    channel answers ["APPROVED"] to both and the downstream server
    returns a result to both calls, the tool is run twice, with the
    stored name and arguments, and both requests are answered
    COMPLETED: the number of runs of a high-risk tool is not bounded by
    the number of approval requests the channel accepted. *)
Theorem overlapping_status_checks_replay_the_tool
    (cfgs : gmap string MCPServerConfig) (srv : string) (E : Env) (fuel : nat)
    (w : world) (taskId : string) (t : task) (oob : string)
    (dt1 dt2 dt3 dt4 : N) (res1 res2 : obj) :
  pollable w taskId t oob →
  checkForApproval E (trace w) oob = (Resolved "APPROVED", dt1) →
  checkForApproval E (EvCheckForApproval oob (Resolved "APPROVED") :: trace w) oob
    = (Resolved "APPROVED", dt2) →
  downstream_callTool E
    (EvCheckForApproval oob (Resolved "APPROVED")
       :: EvCheckForApproval oob (Resolved "APPROVED") :: trace w)
    (toolName t) (toolArgs t) = (Resolved res1, dt3) →
  downstream_callTool E
    (EvCallTool (toolName t) (toolArgs t) (Resolved res1)
       :: EvCheckForApproval oob (Resolved "APPROVED")
       :: EvCheckForApproval oob (Resolved "APPROVED") :: trace w)
    (toolName t) (toolArgs t) = (Resolved res2, dt4) →
  serve cfgs srv E (S fuel)
    [Arrive (status_request taskId); Arrive (status_request taskId);
     Resume 0; Resume 1; Resume 0; Resume 1; Resume 0; Resume 1] w
  = ([Done (Some (Resolved (completed_payload res1 (toolName t))));
      Done (Some (Resolved (completed_payload res2 (toolName t))))],
     World (delete taskId (delete taskId (pendingTasks w)))
           (clock w + Z.of_N dt1 + Z.of_N dt2 + Z.of_N dt3 + Z.of_N dt4)
           (EvCallTool (toolName t) (toolArgs t) (Resolved res2)
              :: EvCallTool (toolName t) (toolArgs t) (Resolved res1)
              :: EvCheckForApproval oob (Resolved "APPROVED")
              :: EvCheckForApproval oob (Resolved "APPROVED") :: trace w)).
Proof.
  intros Hp Hc1 Hc2 Hd1 Hd2.
  destruct (status_check_holds_its_task cfgs srv E fuel taskId w t oob Hp)
    as [Hw Hheld].
  set (approved := EvCheckForApproval oob (Resolved "APPROVED")) in *.
  set (w1 := World (pendingTasks w) (clock w + Z.of_N dt1) (approved :: trace w)).
  set (w2 := World (pendingTasks w1) (clock w1 + Z.of_N dt2) (approved :: trace w1)).
  set (w3 := World (delete taskId (pendingTasks w2)) (clock w2 + Z.of_N dt3)
               (EvCallTool (toolName t) (toolArgs t) (Resolved res1) :: trace w2)).
  destruct (Hheld w dt1 Hc1) as (pa & Ha1 & Ha).
  destruct (Hheld w1 dt2 Hc2) as (pb & Hb1 & Hb).
  destruct (Ha w2 res1 dt3 Hd1) as (pa' & Ha2 & Ha3).
  destruct (Hb w3 res2 dt4 Hd2) as (pb' & Hb2 & Hb3).
  unfold serve. rewrite !serve_from_cons.
  set (p := (handle_request_async cfgs srv E (S fuel) (status_request taskId) w).1)
    in *.
  assert (∀ pool, act cfgs srv E (S fuel) (Arrive (status_request taskId)) pool w
                  = (pool ++ [p], w)) as Harrive.
  { intros pool. unfold act.
    destruct (handle_request_async cfgs srv E (S fuel) (status_request taskId) w)
      as [p0 w0] eqn:Hh. simpl in Hw. subst p. by subst w0. }
  rewrite !Harrive. simpl app. cbn [fst snd].
  rewrite (act_resume _ _ _ _ 0 [p; p] _ _ _ _ eq_refl Ha1). cbn [fst snd].
  simpl (<[_:=_]> _).
  rewrite (act_resume _ _ _ _ 1 [pa; p] _ _ _ _ eq_refl Hb1). cbn [fst snd].
  simpl (<[_:=_]> _).
  rewrite (act_resume _ _ _ _ 0 [pa; pb] _ _ _ _ eq_refl Ha2). cbn [fst snd].
  simpl (<[_:=_]> _).
  rewrite (act_resume _ _ _ _ 1 [pa'; pb] _ _ _ _ eq_refl Hb2). cbn [fst snd].
  simpl (<[_:=_]> _).
  rewrite (act_resume _ _ _ _ 0 [pa'; pb'] _ _ _ _ eq_refl (Ha3 _)). cbn [fst snd].
  simpl (<[_:=_]> _).
  rewrite (act_resume _ _ _ _ 1 [_; pb'] _ _ _ _ eq_refl (Hb3 _)). cbn [fst snd].
  reflexivity.
Qed.

Lemma overlapping_status_checks_replay_the_tool_witness :
  let E := scripted_env [] (Resolved "APPROVED")
             (Resolved [("content", JArr [text_content "Todo added"])]) in
  let taskId := "task-1700000000000-k3x9" in
  let t := Task "add_todos" (JObj [("title", JStr "x")]) PENDING (Some "oob-1") in
  let w := World {[ taskId := t ]} 1700000005000 [] in
  let res := [("content", JArr [text_content "Todo added"])] in
  serve (static_MCPServerMap "secret") "todo-mcp-server" E 4
    [Arrive (status_request taskId); Arrive (status_request taskId);
     Resume 0; Resume 1; Resume 0; Resume 1; Resume 0; Resume 1] w
  = ([Done (Some (Resolved (completed_payload res (toolName t))));
      Done (Some (Resolved (completed_payload res (toolName t))))],
     World (delete taskId (delete taskId (pendingTasks w)))
           (clock w + Z.of_N 0 + Z.of_N 0 + Z.of_N 0 + Z.of_N 0)
           (EvCallTool (toolName t) (toolArgs t) (Resolved res)
              :: EvCallTool (toolName t) (toolArgs t) (Resolved res)
              :: EvCheckForApproval "oob-1" (Resolved "APPROVED")
              :: EvCheckForApproval "oob-1" (Resolved "APPROVED") :: trace w)).
Proof.
  intros E taskId t w res.
  apply (overlapping_status_checks_replay_the_tool (static_MCPServerMap "secret")
           "todo-mcp-server" E 3 w taskId t "oob-1" 0%N 0%N 0%N 0%N res res).
  - split; [vm_compute; reflexivity|]. split; [reflexivity|]. discriminate.
  - reflexivity.
  - reflexivity.
  - reflexivity.
  - reflexivity.
Defined.

(** ** When and with what a status check returns *)

(** The payloads a query can produce. *)
Inductive query_payload (taskId : string) : json → Prop :=
| payload_not_found : query_payload taskId (not_found_payload taskId)
| payload_denied e : query_payload taskId (denied_payload taskId e)
| payload_still_pending tool :
    query_payload taskId (still_pending_payload taskId tool)
| payload_completed res tool :
    query_payload taskId (completed_payload res tool).

Lemma query_step_payload E taskId w payload w' :
  query_step E taskId w payload w' → query_payload taskId payload.
Proof. destruct 1; try destruct r; constructor. Qed.

Lemma query_payload_not_nullish taskId payload lastresult :
  query_payload taskId payload → nullish_coalesce payload lastresult = payload.
Proof. by destruct 1. Qed.

(** The loop returns before its deadline only with a completed payload. *)
Lemma poll_result (E : Env) fuel taskId startTime lastresult w r w' :
  poll E fuel taskId startTime lastresult w = (Some r, w') →
  (r = lastresult ∧ w' = w ∧ (startTime + 10000 ≤ clock w)%Z)
  ∨ (query_payload taskId r
     ∧ (opt_chain (opt_chain r "structuredContent") "status" = JStr "COMPLETED"
        ∨ (startTime + 10000 ≤ clock w')%Z)).
Proof.
  revert lastresult w. induction fuel as [|fuel IH]; intros lastresult w; [done|].
  destruct (Z.lt_ge_cases (clock w) (startTime + 10000)) as [Hclk|Hclk].
  2:{ rewrite poll_deadline by done. intros [= <- <-]. by left. }
  pose proof (handleTaskStatusCheck_step E taskId w) as Hstep.
  destruct (handleTaskStatusCheck E taskId w) as [result w1] eqn:Hq.
  simpl in Hstep. pose proof (query_step_payload _ _ _ _ _ Hstep) as Hpay.
  destruct (truthy (opt_chain (opt_chain result "structuredContent") "status")
            && negb (strict_eq_str
                       (opt_chain (opt_chain result "structuredContent") "status")
                       "PENDING")) eqn:Hst.
  - rewrite (poll_return E fuel _ _ _ _ _ _ Hclk Hq Hst). intros [= <- <-].
    right. split; [done|]. left.
    destruct Hpay; try done. apply status_of_completed.
  - rewrite (poll_continue E fuel _ _ _ _ _ _ Hclk Hq Hst).
    rewrite (query_payload_not_nullish _ _ _ Hpay).
    intros Hp. apply IH in Hp as [(-> & -> & Hd)|Hp]; [|by right].
    right. split; [done|]. right. simpl in *.
    apply query_step_effects in Hstep as (Hmono & _). lia.
Qed.

(** X16: a status check for a string [taskId] always produces an answer,
    and the answer is one of the four payloads of a query: not found,
    denied, still pending, or completed.  It is never [undefined], and
    the bound on the loop never runs out. *)
Theorem status_check_answers_with_a_query_payload
    (cfgs : gmap string MCPServerConfig) (srv : string) (E : Env)
    (fuel : nat) (taskId : string) (arguments meta : json) (w : world) :
  get_prop arguments "taskId" = JStr taskId →
  (4 ≤ fuel)%nat →
  ∃ r w',
    CallToolRequest_handler cfgs srv E fuel "check_task_status" arguments meta w
      = (Some (Resolved r), w')
    ∧ query_payload taskId r.
Proof.
  intros Hargs Hfuel.
  unfold CallToolRequest_handler, check_task_status. simpl. unfold_M.
  rewrite Hargs, (get_taskId_is_object _ _ Hargs). simpl.
  destruct (poll_total E 3 fuel taskId (clock w) JUndefined w) as [r Hr];
    [lia|lia|].
  destruct (poll E fuel taskId (clock w) JUndefined w) as [o w'] eqn:Hp.
  simpl in Hr. subst o. exists r, w'. split; [done|].
  apply poll_result in Hp as [(_ & _ & ?)|[Hpay _]]; [lia|done].
Qed.

Lemma status_check_answers_with_a_query_payload_witness :
  let E := scripted_env [] (Resolved "PENDING") (Resolved []) in
  let w := World ∅ 1700000000000 [] in
  ∃ r w',
    CallToolRequest_handler (static_MCPServerMap "secret") "todo-mcp-server" E 4
      "check_task_status" (JObj [("taskId", JStr "task-9-zzzz")]) JUndefined w
      = (Some (Resolved r), w')
    ∧ query_payload "task-9-zzzz" r.
Proof.
  intros E w.
  apply (status_check_answers_with_a_query_payload (static_MCPServerMap "secret")
           "todo-mcp-server" E 4 "task-9-zzzz");
    [reflexivity | lia].
Defined.

(** X17: only a completed task is answered early.  Whenever a status
    check for a string [taskId] returns a payload whose
    [structuredContent.status] is not ["COMPLETED"], at least ten
    seconds have passed on the clock since the request came in. *)
Theorem status_check_returns_early_only_when_completed
    (cfgs : gmap string MCPServerConfig) (srv : string) (E : Env)
    (fuel : nat) (taskId : string) (arguments meta : json) (w w' : world)
    (r : json) :
  get_prop arguments "taskId" = JStr taskId →
  CallToolRequest_handler cfgs srv E fuel "check_task_status" arguments meta w
    = (Some (Resolved r), w') →
  opt_chain (opt_chain r "structuredContent") "status" ≠ JStr "COMPLETED" →
  (clock w + 10000 ≤ clock w')%Z.
Proof.
  intros Hargs Hrun Hst. revert Hrun.
  unfold CallToolRequest_handler, check_task_status. simpl. unfold_M.
  rewrite Hargs, (get_taskId_is_object _ _ Hargs). simpl.
  destruct (poll E fuel taskId (clock w) JUndefined w) as [[r'|] w''] eqn:Hp;
    [|done].
  simpl. intros [= -> ->].
  apply poll_result in Hp as [(_ & _ & ?)|[_ [?|?]]]; [lia|done|done].
Qed.

Lemma status_check_returns_early_only_when_completed_witness :
  let E := scripted_env [] (Resolved "PENDING") (Resolved []) in
  let w := World ∅ 1700000000000 [] in
  let w' := World ∅ 1700000012000
              [EvSetTimeout 4000; EvSetTimeout 4000; EvSetTimeout 4000] in
  (clock w + 10000 ≤ clock w')%Z.
Proof.
  intros E w w'.
  apply (status_check_returns_early_only_when_completed
           (static_MCPServerMap "secret") "todo-mcp-server" E 4 "task-9-zzzz"
           (JObj [("taskId", JStr "task-9-zzzz")]) JUndefined w w'
           (not_found_payload "task-9-zzzz")).
  - reflexivity.
  - vm_compute; reflexivity.
  - vm_compute. discriminate.
Defined.
